(** * 3DTracker, PC3 4K camera recorder ([src/PC3 - 4K/pycam.py])

    A shallow embedding of the recorder: the [FPS] counter, the
    [WebcamVideoStream] pipeline with its capture and write loops, the
    TTL pulse waits and the start/stop protocol of [main].

    Conventions of the embedding.
    - A [datetime] is the number of microseconds since an arbitrary epoch
      (the resolution of Python's [datetime]); a [timedelta] is a
      difference of two of them.
    - [timedelta.total_seconds()] and the quotients [1 / fps] and
      [numFrames / elapsed] are Python floats in the source ([/] is true
      division); they are taken here as exact rationals ([Q]). The one
      place where the rounding of binary64 changes what the recorder
      does, the comparison of the write loop when both sides are equal
      as rationals, is evaluated in binary64 ([float_exceeds]).
    - An operation that raises in Python ([None] operand, attribute of the
      [-1] placeholder, division by zero, a call with the wrong number of
      arguments) returns [None].
    - A step of a thread on the shared pipeline object is an event; what
      the operating system decides (the instant of an iteration, what the
      camera returns) is an input of the step. A loop tests [self.stopped]
      once, at the top of an iteration: an iteration that has passed the
      test when [stop] sets the flag still runs its body, and is an event
      of its own ([EvUpdateInFlight], [EvWriteInFlight]). *)

From Stdlib Require Import ZArith QArith Qround Qabs List Lia Lqa Bool String.
From Stdlib Require Floats Uint63.
Import ListNotations.
Local Open Scope Z_scope.

(** ** Time *)

Definition datetime := Z.
Definition timedelta := Z.

Definition usec_per_sec : positive := 1000000%positive.

(** [timedelta.total_seconds()] *)
Definition total_seconds (d : timedelta) : Q := d # usec_per_sec.

(** [a > b] on numbers *)
Definition Qgtb (a b : Q) : bool := negb (Qle_bool a b).

(** [a < b] on numbers *)
Definition Qltb (a b : Q) : bool := negb (Qle_bool b a).

(** ** Floats

    The write loop compares two binary64 numbers, [elaps.total_seconds()]
    and [self.frame_index * self.current_frame]. Python converts an [int]
    operand to the nearest float (exactly, below 2^53 in magnitude), [/]
    on two [int]s is the correctly rounded quotient, and
    [total_seconds()] is the number of microseconds divided by [10**6]. *)

Definition float_of_int (z : Z) : PrimFloat.float :=
  match z with
  | Z0 => PrimFloat.zero
  | Zpos _ => PrimFloat.of_uint63 (Uint63.of_Z z)
  | Zneg p => PrimFloat.opp (PrimFloat.of_uint63 (Uint63.of_Z (Zpos p)))
  end.

(** [a / b] on two [int]s *)
Definition true_div (a b : Z) : PrimFloat.float :=
  PrimFloat.div (float_of_int a) (float_of_int b).

Definition total_seconds_float (d : timedelta) : PrimFloat.float :=
  true_div d (Zpos usec_per_sec).

(** The float that the source holds where the embedding keeps the
    rational [q]: the placeholder [-1] or the quotient [1 / fps]. *)
Definition float_of_Q (q : Q) : PrimFloat.float :=
  true_div (Qnum q) (Zpos (Qden q)).

(** [elaps.total_seconds() > frame_index * current_frame] in binary64,
    for an elapsed time of [d] microseconds *)
Definition float_exceeds (d : timedelta) (frame_index : Q) (current_frame : Z)
  : bool :=
  PrimFloat.ltb
    (PrimFloat.mul (float_of_Q frame_index) (float_of_int current_frame))
    (total_seconds_float d).

(** The comparison as the embedding takes it. The two sides are
    [d / 10^6] and [current_frame / fps]; when they differ they differ
    by [1 / (fps * 10^6)] or more, which the rounding errors (a relative
    2^-53 each) do not reach in a recording shorter than [3 * 10^9 / fps]
    seconds, and the exact comparison decides. When they are equal the
    roundings decide, and the comparison is made in binary64. *)
Definition elapsed_exceeds (d : timedelta) (frame_index : Q) (current_frame : Z)
  : bool :=
  match (frame_index * inject_Z current_frame ?= total_seconds d)%Q with
  | Lt => true
  | Eq => float_exceeds d frame_index current_frame
  | Gt => false
  end.

(** ** A clock

    Code that reads or spends wall-clock time is a function of the clock.
    Ordinary statements are instantaneous; [time.sleep] and the cost of
    starting a thread advance the clock. *)

Definition timed (A : Type) : Type := datetime -> A * datetime.

Definition ret {A} (a : A) : timed A := fun c => (a, c).

Definition bind {A B} (m : timed A) (k : A -> timed B) : timed B :=
  fun c => let (a, c') := m c in k a c'.

Notation "x <- m ;; k" := (bind m (fun x => k))
  (at level 61, m at next level, right associativity).
Notation "m ;;; k" := (bind m (fun _ => k))
  (at level 61, right associativity).

(** [datetime.datetime.now()] *)
Definition datetime_now : timed datetime := fun c => (c, c).

(** [time.sleep(secs)]: the thread is suspended for [secs] seconds and for
    [over] microseconds more, whatever the scheduler adds *)
Definition time_sleep (secs : Z) (over : Z) : timed unit :=
  fun c => (tt, c + secs * Zpos usec_per_sec + over).

(** What a call costs the caller in time. *)
Definition tick (cost : Z) : timed unit := fun c => (tt, c + cost).

(** The wait of [stop] before it releases the device and the file. *)
Definition grace : Z := 5 * Zpos usec_per_sec.

(** ** The FPS counter (class [FPS]) *)

Module FPS.

Record t := mk {
  _start : option datetime;
  _end : option datetime;
  _numFrames : Z
}.

(** [__init__] *)
Definition init : t := mk None None 0.

(** [start]: the caller passes what [datetime.datetime.now()] reads *)
Definition start (now : datetime) (c : t) : t :=
  mk (Some now) (_end c) (_numFrames c).

Definition stop (now : datetime) (c : t) : t :=
  mk (_start c) (Some now) (_numFrames c).

Definition update (c : t) : t :=
  mk (_start c) (_end c) (_numFrames c + 1).

(** [elapsed]: [(self._end - self._start).total_seconds()]; a [None]
    operand raises [TypeError] *)
Definition elapsed (c : t) : option Q :=
  match _end c, _start c with
  | Some e, Some s => Some (total_seconds (e - s))
  | _, _ => None
  end.

(** [fps] *)
Definition fps (c : t) : option Q :=
  match elapsed c with
  | None => None
  | Some el =>
      if Qeq_bool el 0 then Some 0%Q
      else Some (inject_Z (_numFrames c) / el)%Q
  end.

End FPS.

(** ** Devices: the camera and the video file

    OpenCV objects are external; only what the recorder observes of them
    is kept. A frame buffer is [Some] picture or Python's [None], which is
    what [VideoCapture.read] hands back together with [False]. The video
    file is the log of the buffers the recorder has passed to its [write];
    what the encoder makes of a buffer is not part of the recorder. *)

Definition image := nat.
Definition frame_buf := option image.
Definition read_result := (bool * frame_buf)%type.

Record VideoCapture := mkCap {
  cap_src : Z;
  cap_opened : bool;
  cap_props : list (Z * Z);
  cap_released : bool
}.

(** [cv2.VideoCapture(src)]: never raises; [opened] tells whether the
    index could be opened *)
Definition VideoCapture_new (src : Z) (opened : bool) : VideoCapture :=
  mkCap src opened [] false.

Definition cap_set (k v : Z) (c : VideoCapture) : VideoCapture :=
  mkCap (cap_src c) (cap_opened c) (cap_props c ++ [(k, v)]) (cap_released c).

(** [stream.read()]: [r] is what the driver delivers on an open device; a
    device that is not open delivers [(False, None)] *)
Definition cap_read (c : VideoCapture) (r : read_result) : read_result :=
  if cap_opened c && negb (cap_released c) then r else (false, None).

Definition cap_release (c : VideoCapture) : VideoCapture :=
  mkCap (cap_src c) (cap_opened c) (cap_props c) true.

Record VideoWriter := mkWriter {
  vw_path : string;
  vw_fourcc : string;
  vw_fps : Z;
  vw_size : Z * Z;
  vw_frames : list frame_buf;   (* buffers handed to [write], oldest first *)
  vw_released : bool
}.

Definition VideoWriter_new (path codec : string) (rate : Z) (size : Z * Z)
  : VideoWriter := mkWriter path codec rate size [] false.

Definition vw_write (f : frame_buf) (w : VideoWriter) : VideoWriter :=
  mkWriter (vw_path w) (vw_fourcc w) (vw_fps w) (vw_size w)
           (vw_frames w ++ [f]) (vw_released w).

Definition vw_release (w : VideoWriter) : VideoWriter :=
  mkWriter (vw_path w) (vw_fourcc w) (vw_fps w) (vw_size w)
           (vw_frames w) true.

(** What one pass through the body of a [while True] loop does. *)
Inductive loop_result (A : Type) :=
| Return                (* the [return] under [if self.stopped] *)
| Continue (s : A)      (* the body ran, back to the loop head *)
| Raise.                (* an exception ends the thread *)
Arguments Return {A}.
Arguments Continue {A} s.
Arguments Raise {A}.

(** ** One camera (class [WebcamVideoStream]) *)

Module WebcamVideoStream.

Record t := mk {
  stream : VideoCapture;
  resolution : Z * Z;
  fps : Z;
  video_name : string;
  fourcc : string;
  out : option VideoWriter;      (* [None] is the placeholder [-1] *)
  FPS_counter : FPS.t;
  frame_index : Q;
  current_frame : Z;
  num_frames : Z;
  grabbed : bool;
  frame : frame_buf;
  stopped : bool
}.

(** [__init__]: the device is opened and configured, the output
    settings get their placeholders, and one frame is read at once *)
Definition init (src : Z) (opened : bool) (r : read_result) : t :=
  let cap := cap_set 5 30 (cap_set 4 2160 (cap_set 3 4096
               (VideoCapture_new src opened))) in
  let gf := cap_read cap r in
  mk cap (4096, 2160) (-1) EmptyString EmptyString None FPS.init
     (-1 # 1) 0 (-1) (fst gf) (snd gf) false.

Definition set_FPS_counter (c : FPS.t) (s : t) : t :=
  mk (stream s) (resolution s) (fps s) (video_name s) (fourcc s) (out s)
     c (frame_index s) (current_frame s) (num_frames s)
     (grabbed s) (frame s) (stopped s).

Definition set_read (gf : read_result) (s : t) : t :=
  mk (stream s) (resolution s) (fps s) (video_name s) (fourcc s) (out s)
     (FPS_counter s) (frame_index s) (current_frame s) (num_frames s)
     (fst gf) (snd gf) (stopped s).

Definition set_out (w : option VideoWriter) (s : t) : t :=
  mk (stream s) (resolution s) (fps s) (video_name s) (fourcc s) w
     (FPS_counter s) (frame_index s) (current_frame s) (num_frames s)
     (grabbed s) (frame s) (stopped s).

Definition set_current_frame (n : Z) (s : t) : t :=
  mk (stream s) (resolution s) (fps s) (video_name s) (fourcc s) (out s)
     (FPS_counter s) (frame_index s) n (num_frames s)
     (grabbed s) (frame s) (stopped s).

Definition set_stopped (b : bool) (s : t) : t :=
  mk (stream s) (resolution s) (fps s) (video_name s) (fourcc s) (out s)
     (FPS_counter s) (frame_index s) (current_frame s) (num_frames s)
     (grabbed s) (frame s) b.

Definition set_stream (c : VideoCapture) (s : t) : t :=
  mk c (resolution s) (fps s) (video_name s) (fourcc s) (out s)
     (FPS_counter s) (frame_index s) (current_frame s) (num_frames s)
     (grabbed s) (frame s) (stopped s).

Definition set_fps (n : Z) (s : t) : t :=
  mk (stream s) (resolution s) n (video_name s) (fourcc s) (out s)
     (FPS_counter s) (frame_index s) (current_frame s) (num_frames s)
     (grabbed s) (frame s) (stopped s).

Definition set_num_frames (n : Z) (s : t) : t :=
  mk (stream s) (resolution s) (fps s) (video_name s) (fourcc s) (out s)
     (FPS_counter s) (frame_index s) (current_frame s) n
     (grabbed s) (frame s) (stopped s).

Definition set_frame_index (q : Q) (s : t) : t :=
  mk (stream s) (resolution s) (fps s) (video_name s) (fourcc s) (out s)
     (FPS_counter s) q (current_frame s) (num_frames s)
     (grabbed s) (frame s) (stopped s).

(** [start]: the counter is started; the two threads it spawns are the
    [update_iter] and [write_iter] steps taken afterwards *)
Definition start (now : datetime) (s : t) : t :=
  set_FPS_counter (FPS.start now (FPS_counter s)) s.

(** The body of an iteration of [update] (the capture loop), past the
    test of the flag. *)
Definition update_body (r : read_result) (s : t) : loop_result t :=
  Continue (set_read (cap_read (stream s) r) s).

(** One iteration of [update]. *)
Definition update_iter (r : read_result) (s : t) : loop_result t :=
  if stopped s then Return else update_body r s.

(** The body of an iteration of [write] (the write loop), past the test
    of the flag; [now] is what [datetime.datetime.now()] reads in it. *)
Definition write_body (now : datetime) (s : t) : loop_result t :=
  match FPS._start (FPS_counter s) with
  | None => Raise
  | Some t0 =>
      let elaps := now - t0 in
      if elapsed_exceeds elaps (frame_index s) (current_frame s)
      then
        match out s with
        | None => Raise
        | Some w =>
            let s1 := set_out (Some (vw_write (frame s) w)) s in
            let s2 := set_current_frame (current_frame s1 + 1) s1 in
            Continue (set_FPS_counter (FPS.update (FPS_counter s2)) s2)
        end
      else Continue s
  end.

(** One iteration of [write]. *)
Definition write_iter (now : datetime) (s : t) : loop_result t :=
  if stopped s then Return else write_body now s.

(** [read] *)
Definition read (s : t) : frame_buf := frame s.

(** The frames this camera has handed to its video file. *)
Definition emitted (s : t) : list frame_buf :=
  match out s with
  | Some w => vw_frames w
  | None => []
  end.

(** [stop], first half: the flag and the end instant *)
Definition stop_flag (now : datetime) (s : t) : t :=
  let s1 := set_stopped true s in
  set_FPS_counter (FPS.stop now (FPS_counter s1)) s1.

(** [self.stream.release()] *)
Definition release_stream (s : t) : t :=
  set_stream (cap_release (stream s)) s.

(** [self.out.release()]; the placeholder [-1] has no such method *)
Definition release_out (s : t) : option t :=
  match out s with
  | Some w => Some (set_out (Some (vw_release w)) s)
  | None => None
  end.

(** The statements of [stop]. *)
Inductive stmt :=
| SetStopped            (* [self.stopped = True] *)
| FpsStop               (* [self.FPS_counter.stop()] *)
| Sleep (secs : Z)      (* [time.sleep(secs)] *)
| ReleaseStream         (* [self.stream.release()] *)
| ReleaseOut.           (* [self.out.release()] *)

(** The body of [stop], in the order of the source. *)
Definition stop_body : list stmt :=
  [SetStopped; FpsStop; Sleep 5; ReleaseStream; ReleaseOut].

Definition exec_stmt (over : Z) (st : stmt) (s : t) : timed (option t) :=
  match st with
  | SetStopped => ret (Some (set_stopped true s))
  | FpsStop =>
      now <- datetime_now ;;
      ret (Some (set_FPS_counter (FPS.stop now (FPS_counter s)) s))
  | Sleep secs => time_sleep secs over ;;; ret (Some s)
  | ReleaseStream => ret (Some (release_stream s))
  | ReleaseOut => ret (release_out s)
  end.

(** What a statement has done: the instant at which it returned and the
    camera object it left ([None] when it raised). *)
Definition entry := (datetime * stmt * option t)%type.

(** Statements run in sequence, up to the first that raises; the result
    comes with the trace of what was done. *)
Fixpoint exec (over : Z) (body : list stmt) (s : t)
  : timed (option t * list entry) :=
  match body with
  | [] => ret (Some s, [])
  | st :: rest =>
      r <- exec_stmt over st s ;;
      now <- datetime_now ;;
      match r with
      | None => ret (None, [(now, st, None)])
      | Some s' =>
          rl <- exec over rest s' ;;
          ret (fst rl, (now, st, Some s') :: snd rl)
      end
  end.

(** [stop] *)
Definition stop (over : Z) (s : t) : timed (option t) :=
  rl <- exec over stop_body s ;;
  ret (fst rl).

(** What a call of [stop] at instant [c] does, statement by statement. *)
Definition stop_trace (over : Z) (s : t) (c : datetime) : list entry :=
  snd (fst (exec over stop_body s c)).

(** What the threads and the controller do to one camera object, one
    step each. [EvUpdate] and [EvWrite] are iterations that test the
    flag and run their body at once; [EvUpdateInFlight] and
    [EvWriteInFlight] are the bodies of iterations that tested the flag
    before [stop] set it and complete afterwards (each loop has at most
    one). [EvStopFlag] is the first two statements of [stop], the
    release steps are its last two. *)
Inductive event :=
| EvStart (now : datetime)
| EvUpdate (r : read_result)
| EvWrite (now : datetime)
| EvRead
| EvStopFlag (now : datetime)
| EvReleaseStream
| EvReleaseOut
| EvUpdateInFlight (r : read_result)
| EvWriteInFlight (now : datetime).

Definition after {A} (r : loop_result A) (s : A) : A :=
  match r with
  | Continue s' => s'
  | Return | Raise => s
  end.

Definition step (e : event) (s : t) : t :=
  match e with
  | EvStart now => start now s
  | EvUpdate r => after (update_iter r s) s
  | EvWrite now => after (write_iter now s) s
  | EvRead => s
  | EvStopFlag now => stop_flag now s
  | EvReleaseStream => release_stream s
  | EvReleaseOut =>
      match release_out s with Some s' => s' | None => s end
  | EvUpdateInFlight r => after (update_body r s) s
  | EvWriteInFlight now => after (write_body now s) s
  end.

Fixpoint run (evs : list event) (s : t) : t :=
  match evs with
  | [] => s
  | e :: evs' => run evs' (step e s)
  end.

(** The write thread alone: [nows] are the clock readings of its
    successive iterations. *)
Fixpoint write_loop (nows : list datetime) (s : t) : t :=
  match nows with
  | [] => s
  | now :: rest =>
      match write_iter now s with
      | Continue s' => write_loop rest s'
      | Return | Raise => s
      end
  end.

End WebcamVideoStream.

(** ** Threads

    [Thread(target=f).start()] runs [f] from the instant of the call on a
    time line of its own, while the caller goes on after [cost]
    microseconds; [join] holds the caller until the target has returned.
    The targets run here touch one camera object each. *)

Record Thread (A : Type) := mkThread {
  th_result : A;
  th_finish : datetime
}.
Arguments mkThread {A}.
Arguments th_result {A}.
Arguments th_finish {A}.

Definition Thread_start {A} (cost : Z) (target : timed A) : timed (Thread A) :=
  fun c => let (a, c') := target c in (mkThread a c', c + cost).

Definition Thread_join {A} (th : Thread A) : timed A :=
  fun c => (th_result th, Z.max c (th_finish th)).

(** ** The digital lines of the NI device *)

Definition DEVICE_NAME : string := "Dev_3DT".
Definition ON : string := DEVICE_NAME ++ "/port1/line0".
Definition OFF : string := DEVICE_NAME ++ "/port1/line1".

Record Task := mkTask {
  channel : string;
  reads : nat;            (* samples read so far *)
  closed : bool
}.

(** [nidaqmx.Task()] with one digital input channel added *)
Definition Task_new (chan : string) : Task := mkTask chan 0 false.

Definition task_read (task : Task) : Task :=
  mkTask (channel task) (S (reads task)) (closed task).

Definition task_close (task : Task) : Task :=
  mkTask (channel task) (reads task) true.

(** [round(x)] of Python 3: the nearest integer, a tie goes to the even
    neighbour *)
Definition py_round (q : Q) : Z :=
  let f := Qfloor q in
  match Qcompare (q - inject_Z f) (1 # 2) with
  | Lt => f
  | Gt => f + 1
  | Eq => if Z.even f then f else f + 1
  end.

(** ** The controller ([main]) *)

Module Main.

Record args := mkArgs {
  seconds : Z;
  fps : Z;
  codec : string;
  out1 : string; out2 : string; out3 : string; out4 : string;
  cam1 : Z; cam2 : Z; cam3 : Z; cam4 : Z
}.

(** What the k-th camera does when it is opened and first read. *)
Definition cameras := nat -> bool * read_result.

(** "Camera k setup": five statements per camera; [1 / vs.fps] raises
    [ZeroDivisionError] for a zero rate *)
Definition camera_setup (a : args) (src : Z) (path : string)
    (cam : bool * read_result) : option WebcamVideoStream.t :=
  let vs := WebcamVideoStream.init src (fst cam) (snd cam) in
  let vs := WebcamVideoStream.set_fps (fps a) vs in
  let vs := WebcamVideoStream.set_num_frames
              (seconds a * WebcamVideoStream.fps vs) vs in
  let vs := WebcamVideoStream.set_out
              (Some (VideoWriter_new path (codec a)
                       (WebcamVideoStream.fps vs)
                       (WebcamVideoStream.resolution vs))) vs in
  if WebcamVideoStream.fps vs =? 0 then None
  else Some (WebcamVideoStream.set_frame_index
               (1 / inject_Z (WebcamVideoStream.fps vs)) vs).

(** [cv2.VideoWriter_fourcc] applied to the unpacked [codec]: the
    characters of the string are the four arguments of the function; with any other number of
    characters the call raises [TypeError] *)
Definition VideoWriter_fourcc (codec : string) : option string :=
  if (String.length codec =? 4)%nat then Some codec else None.

(** "INITIALIZE CAMERAS": the codec first, then the four cameras *)
Definition initialize_cameras (a : args) (env : cameras)
  : option (list WebcamVideoStream.t) :=
  match VideoWriter_fourcc (codec a) with
  | None => None
  | Some _ =>
  match camera_setup a (cam1 a) (out1 a) (env 1%nat) with
  | None => None
  | Some vs1 =>
  match camera_setup a (cam2 a) (out2 a) (env 2%nat) with
  | None => None
  | Some vs2 =>
  match camera_setup a (cam3 a) (out3 a) (env 3%nat) with
  | None => None
  | Some vs3 =>
  match camera_setup a (cam4 a) (out4 a) (env 4%nat) with
  | None => None
  | Some vs4 => Some [vs1; vs2; vs3; vs4]
  end end end end end.

(** The pulse loop, [while PULSE is False: ...]: [samples i] is
    [data[0]] of the i-th read of the task, [fuel] bounds the number of
    times the loop condition is evaluated; [None] when the loop is still
    running after that. *)
Fixpoint wait_for_pulse (fuel : nat) (samples : nat -> bool)
    (PULSE : bool) (task : Task) : option Task :=
  match fuel with
  | O => None
  | S fuel' =>
      if PULSE then Some task
      else
        let data := samples (reads task) in
        let task := task_read task in
        if data then wait_for_pulse fuel' samples true (task_close task)
        else wait_for_pulse fuel' samples PULSE task
  end.

(** "READ ON PULSES" and the TTL branch of "WAIT FOR END CONDITION" *)
Definition read_on_pulse (fuel : nat) (samples : nat -> bool) : option Task :=
  wait_for_pulse fuel samples false (Task_new ON).

Definition read_off_pulse (fuel : nat) (samples : nat -> bool) : option Task :=
  wait_for_pulse fuel samples false (Task_new OFF).

(** The timed branch of "WAIT FOR END CONDITION":
    [start = now(); end = now(); while (end - start).total_seconds() <
    seconds: end = now()]. [clock i] is what the i-th call of
    [datetime.datetime.now()] reads (the first is number 0), [i] the number
    of calls made so far, [fuel] bounds the number of times the loop
    condition is evaluated. The result is the last reading and the number of
    calls made. *)
Fixpoint duration_loop (fuel : nat) (clock : nat -> datetime) (seconds : Z)
    (start : datetime) (i : nat) (end_ : datetime) : option (datetime * nat) :=
  match fuel with
  | O => None
  | S fuel' =>
      if Qltb (total_seconds (end_ - start)) (inject_Z seconds)
      then duration_loop fuel' clock seconds start (S i) (clock i)
      else Some (end_, i)
  end.

Definition wait_for_duration (fuel : nat) (clock : nat -> datetime)
    (seconds : Z) : option (datetime * nat) :=
  duration_loop fuel clock seconds (clock 0%nat) 2 (clock 1%nat).

(** [vs.start()] as the controller calls it: the counter reads the
    clock, then the two threads are created and started, which costs the
    controller [cost] microseconds *)
Definition start_stream (cost : Z) (vs : WebcamVideoStream.t)
  : timed WebcamVideoStream.t :=
  now <- datetime_now ;;
  tick cost ;;;
  ret (WebcamVideoStream.start now vs).

(** "START VIDEO STREAMS": one call after the other; [cost k] is the
    cost of the call for camera [k] *)
Fixpoint start_streams (cost : nat -> Z) (k : nat)
    (vss : list WebcamVideoStream.t) : timed (list WebcamVideoStream.t) :=
  match vss with
  | [] => ret []
  | vs :: rest =>
      vs' <- start_stream (cost k) vs ;;
      rest' <- start_streams cost (S k) rest ;;
      ret (vs' :: rest')
  end.

(** From the command line to the recording state, with the pulse wait
    of TTL mode in between. [daq] tells whether the NI device is there:
    without it the creation of the task raises. [cost 0] is the time that
    the setup of the cameras and the wait for the pulse have taken when
    the first camera is started. [None]: an exception, or the ON pulse
    has not come within [fuel]. *)
Definition arm_and_start (a : args) (env : cameras) (daq : bool)
    (cost : nat -> Z) (fuel : nat) (samples : nat -> bool)
  : timed (option (list WebcamVideoStream.t)) :=
  match initialize_cameras a env with
  | None => ret None
  | Some vss =>
      if seconds a =? -1 then
        if daq then
          match read_on_pulse fuel samples with
          | None => ret None
          | Some _ =>
              tick (cost 0%nat) ;;;
              vss' <- start_streams cost 1 vss ;;
              ret (Some vss')
          end
        else ret None
      else
        tick (cost 0%nat) ;;;
        vss' <- start_streams cost 1 vss ;;
        ret (Some vss')
  end.

(** "STOP RECORDING": four threads are created, all are started, then
    all are joined. [cost k] is what starting the k-th thread costs the
    controller, [over k] by how much the k-th sleep overruns. *)
Definition stop_recording (cost over : nat -> Z)
    (vs1 vs2 vs3 vs4 : WebcamVideoStream.t)
  : timed (list (option WebcamVideoStream.t)) :=
  t1 <- Thread_start (cost 1%nat) (WebcamVideoStream.stop (over 1%nat) vs1) ;;
  t2 <- Thread_start (cost 2%nat) (WebcamVideoStream.stop (over 2%nat) vs2) ;;
  t3 <- Thread_start (cost 3%nat) (WebcamVideoStream.stop (over 3%nat) vs3) ;;
  t4 <- Thread_start (cost 4%nat) (WebcamVideoStream.stop (over 4%nat) vs4) ;;
  r1 <- Thread_join t1 ;;
  r2 <- Thread_join t2 ;;
  r3 <- Thread_join t3 ;;
  r4 <- Thread_join t4 ;;
  ret [r1; r2; r3; r4].

(** "PRINT FPS INFORMATION": the lines printed *)
Inductive line :=
| Average (cam : nat) (avg : Q)
| Target (cam : nat) (rate : Z)
| Warning (cam : nat).

Definition report_camera (k : nat) (vs : WebcamVideoStream.t)
  : option (list line) :=
  match FPS.fps (WebcamVideoStream.FPS_counter vs) with
  | None => None
  | Some average_fps =>
      Some ([Average k average_fps; Target k (WebcamVideoStream.fps vs)]
            ++ (if py_round average_fps <? WebcamVideoStream.fps vs
                then [Warning k] else []))
  end.

Definition print_fps_information (vs1 vs2 vs3 vs4 : WebcamVideoStream.t)
  : option (list line) :=
  match report_camera 1 vs1, report_camera 2 vs2,
        report_camera 3 vs3, report_camera 4 vs4 with
  | Some l1, Some l2, Some l3, Some l4 => Some (l1 ++ l2 ++ l3 ++ l4)
  | _, _, _, _ => None
  end.

End Main.

(** ** Sample data

    A command line and cameras used to run the definitions: the default
    arguments with a fixed duration of two seconds, and four cameras that
    open and deliver picture 7 at once. *)

Definition sample_args : Main.args :=
  Main.mkArgs 2 5 "IYUV" "output1.avi" "output2.avi" "output3.avi"
              "output4.avi" 0 1 2 3.

Definition good_read : read_result := (true, Some 7%nat).
Definition failed_read : read_result := (false, None).

(** A configured camera whose first read succeeded, started at instant 0. *)
Definition sample_camera : WebcamVideoStream.t :=
  match Main.camera_setup sample_args 0 "output1.avi" (true, good_read) with
  | Some vs => WebcamVideoStream.start 0 vs
  | None => WebcamVideoStream.init 0 true good_read
  end.

(** A line that goes high at the third sample. *)
Definition sample_line (n : nat) : bool := (2 <=? n)%nat.

(** The sample camera two seconds into a recording whose write loop came
    round once a second, still running. *)
Definition slow_running : WebcamVideoStream.t :=
  WebcamVideoStream.run
    [WebcamVideoStream.EvUpdate good_read; WebcamVideoStream.EvWrite 1000000;
     WebcamVideoStream.EvUpdate good_read; WebcamVideoStream.EvWrite 2000000;
     WebcamVideoStream.EvUpdate good_read]
    sample_camera.

(** The sample camera after a recording of two seconds: [slow_recording]
    with a write loop that came round once a second, [paced_recording]
    with one that came round every 0.2 s. *)
Definition slow_recording : WebcamVideoStream.t :=
  WebcamVideoStream.run
    [WebcamVideoStream.EvUpdate good_read; WebcamVideoStream.EvWrite 1000000;
     WebcamVideoStream.EvUpdate good_read; WebcamVideoStream.EvWrite 2000000;
     WebcamVideoStream.EvUpdate good_read; WebcamVideoStream.EvStopFlag 2000000]
    sample_camera.

(** Iterations of a write loop 0.2 s apart, over two seconds. *)
Definition paced_nows : list datetime :=
  [1; 200001; 400001; 600001; 800001;
   1000001; 1200001; 1400001; 1600001; 1800001].

Definition paced_recording : WebcamVideoStream.t :=
  WebcamVideoStream.run
    (map WebcamVideoStream.EvWrite paced_nows
     ++ [WebcamVideoStream.EvStopFlag 2000000])
    sample_camera.

(** A camera whose first read failed, set up and started at instant 0. *)
Definition blind_camera : WebcamVideoStream.t :=
  match Main.camera_setup sample_args 0 "output1.avi" (true, failed_read) with
  | Some vs => WebcamVideoStream.start 0 vs
  | None => WebcamVideoStream.init 0 true failed_read
  end.

(** Four cameras of which the second cannot be opened. *)
Definition second_camera_missing : Main.cameras :=
  fun k => if (k =? 2)%nat then (false, failed_read) else (true, good_read).

(** The buffer the constructor's read leaves in the slot. *)
Definition first_buffer (cam : bool * read_result) : frame_buf :=
  if fst cam then snd (snd cam) else None.

(** Iterations of a write loop 0.2 s apart that go on for one more, and
    the sample camera at 49 frames per second. *)
Definition long_nows : list datetime := paced_nows ++ [2000001].

Definition sample_args_49 : Main.args :=
  Main.mkArgs 2 49 "IYUV" "output1.avi" "output2.avi" "output3.avi"
              "output4.avi" 0 1 2 3.

(** The sample camera at 49 frames per second, started at instant 0, and
    49 iterations of its write loop, each just late enough to hand over a
    frame, the last of them before the end of the first second. *)
Definition sample_camera_49 : WebcamVideoStream.t :=
  match Main.camera_setup sample_args_49 0 "output1.avi" (true, good_read) with
  | Some vs => WebcamVideoStream.start 0 vs
  | None => WebcamVideoStream.init 0 true good_read
  end.

Definition tie_nows : list datetime :=
  map (fun k => Z.of_nat k * 20409 + 1) (seq 0 49).

(** A command line with a codec of three characters. *)
Definition short_codec_args : Main.args :=
  Main.mkArgs 2 5 "XVI" "output1.avi" "output2.avi" "output3.avi"
              "output4.avi" 0 1 2 3.

(** ** Vocabulary of the statements *)

(** The camera is recording: started at [t0], not stopped, with a video
    file and the frame interval of rate [f]. *)
Definition recording (t0 : datetime) (f : Z) (s : WebcamVideoStream.t) : Prop :=
  WebcamVideoStream.stopped s = false /\
  FPS._start (WebcamVideoStream.FPS_counter s) = Some t0 /\
  (exists w, WebcamVideoStream.out s = Some w) /\
  WebcamVideoStream.frame_index s = (1 / inject_Z f)%Q.

(** The write loop comes round at least once per frame interval: from
    [prev] on, through the instants [nows] of its iterations and up to
    [stop], no gap is longer than [1 / f] seconds. *)
Fixpoint dense (f : Z) (prev : datetime) (nows : list datetime)
    (stop : datetime) : Prop :=
  match nows with
  | [] => prev <= stop /\ (stop - prev) * f <= Zpos usec_per_sec
  | now :: rest =>
      prev <= now /\ (now - prev) * f <= Zpos usec_per_sec /\
      dense f now rest stop
  end.

(** The reading [t] lies [seconds] seconds or more after [start]. *)
Definition duration_due (seconds : Z) (start t : datetime) : Prop :=
  seconds * Zpos usec_per_sec <= t - start.

(** A clock read every half second. *)
Definition half_second_clock (i : nat) : datetime := Z.of_nat i * 500000.

(** The step is an iteration of the capture loop. *)
Definition is_capture (e : WebcamVideoStream.event) : bool :=
  match e with
  | WebcamVideoStream.EvUpdate _
  | WebcamVideoStream.EvUpdateInFlight _ => true
  | _ => false
  end.


(** The step is the body of an iteration that was in flight. *)
Definition is_in_flight (e : WebcamVideoStream.event) : bool :=
  match e with
  | WebcamVideoStream.EvUpdateInFlight _
  | WebcamVideoStream.EvWriteInFlight _ => true
  | _ => false
  end.

(** The number of write iterations in flight among the steps. *)
Fixpoint writes_in_flight (evs : list WebcamVideoStream.event) : nat :=
  match evs with
  | [] => 0%nat
  | WebcamVideoStream.EvWriteInFlight _ :: rest => S (writes_in_flight rest)
  | _ :: rest => writes_in_flight rest
  end.

(** The write iteration in flight when [stop] is called, if there is
    one: [late] is what it reads from the clock. *)
Definition in_flight_write (late : option datetime)
  : list WebcamVideoStream.event :=
  match late with
  | Some now => [WebcamVideoStream.EvWriteInFlight now]
  | None => []
  end.

(** A recording from start to stop as one camera object sees it: the
    write iterations at the instants [nows], the flag and the end
    instant at [stop], and then the iteration in flight. *)
Definition session (nows : list datetime) (stop : datetime)
    (late : option datetime) : list WebcamVideoStream.event :=
  map WebcamVideoStream.EvWrite nows
  ++ WebcamVideoStream.EvStopFlag stop :: in_flight_write late.


(** What an open or a missing device hands back for the read [r]. *)
Definition delivered (opened : bool) (r : read_result) : frame_buf :=
  if opened then snd r else None.

(** The buffer of the most recent iteration of the capture loop among
    the steps, [cur] when there is none. *)
Fixpoint latest (opened : bool) (cur : frame_buf)
    (evs : list WebcamVideoStream.event) : frame_buf :=
  match evs with
  | [] => cur
  | WebcamVideoStream.EvUpdate r :: rest => latest opened (delivered opened r) rest
  | _ :: rest => latest opened cur rest
  end.

(** The step is an iteration of one of the two loops, or a [read]. *)
Definition is_loop_step (e : WebcamVideoStream.event) : bool :=
  match e with
  | WebcamVideoStream.EvUpdate _
  | WebcamVideoStream.EvWrite _
  | WebcamVideoStream.EvRead => true
  | _ => false
  end.

(** The instants of the iterations of the write loop among the steps. *)
Fixpoint write_instants (evs : list WebcamVideoStream.event) : list datetime :=
  match evs with
  | [] => []
  | WebcamVideoStream.EvWrite now :: rest => now :: write_instants rest
  | _ :: rest => write_instants rest
  end.

(** * Properties *)

(** ** Numbers *)

Lemma Qgtb_lt (a b : Q) : Qgtb a b = true <-> (b < a)%Q.
Proof.
  unfold Qgtb. rewrite negb_true_iff. split.
  - intro H. apply Qnot_le_lt. intro Hle.
    apply Qle_bool_iff in Hle. congruence.
  - intro H. destruct (Qle_bool a b) eqn:E; [|reflexivity].
    apply Qle_bool_iff in E. exfalso. exact (Qlt_not_le _ _ H E).
Qed.

Lemma total_seconds_zero (d : timedelta) : (total_seconds d == 0)%Q <-> d = 0.
Proof.
  unfold total_seconds, Qeq. simpl. lia.
Qed.

(** ** The rate computation *)

Lemma elapsed_instants (c : FPS.t) (s e : datetime) :
  FPS._start c = Some s -> FPS._end c = Some e ->
  FPS.elapsed c = Some (total_seconds (e - s)).
Proof.
  intros Hs He. unfold FPS.elapsed. now rewrite Hs, He.
Qed.

(** C5. With both instants recorded, the elapsed duration is the number
    of microseconds between them divided by a million; [fps] is 0 when
    the two instants are the same, and the frame count divided by that
    duration in seconds otherwise. *)
Theorem fps_zero_or_quotient (c : FPS.t) (s e : datetime) :
  FPS._start c = Some s -> FPS._end c = Some e ->
  exists el,
    FPS.elapsed c = Some el /\
    (el == inject_Z (e - s) / inject_Z 1000000)%Q /\
    (e = s -> (el == 0)%Q /\ FPS.fps c = Some 0%Q) /\
    (e <> s ->
     ~ (el == 0)%Q /\
     exists q, FPS.fps c = Some q /\
       (q == inject_Z (FPS._numFrames c) / el)%Q /\
       (q * inject_Z (e - s)
        == inject_Z (FPS._numFrames c) * inject_Z 1000000)%Q).
Proof.
  intros Hs He. unfold datetime in *.
  pose proof (elapsed_instants c s e Hs He) as Hel.
  exists (total_seconds (e - s)). split; [exact Hel|].
  assert (Hsec : (total_seconds (e - s)%Z
                  == inject_Z (e - s) / inject_Z 1000000)%Q).
  { unfold total_seconds, usec_per_sec, Qeq, Qdiv, Qmult, Qinv, inject_Z.
    cbn. lia. }
  split; [exact Hsec|].
  unfold FPS.fps. rewrite Hel.
  destruct (Qeq_bool (total_seconds (e - s)) 0) eqn:E.
  - apply Qeq_bool_iff in E. pose proof E as E0.
    apply (proj1 (total_seconds_zero _)) in E.
    split; [intros _; split; [exact E0 | reflexivity] | intro Hne; lia].
  - assert (Hnz : ~ (total_seconds (e - s)%Z == 0)%Q).
    { intro H. apply Qeq_bool_iff in H. congruence. }
    split.
    + intro Heq. subst e. exfalso. apply Hnz.
      apply total_seconds_zero. lia.
    + intros _. split; [exact Hnz|].
      eexists. split; [reflexivity|]. split; [reflexivity|].
      rewrite Hsec. field.
      intro H. apply Hnz. rewrite Hsec, H. reflexivity.
Qed.

Lemma fps_zero_or_quotient_witness :
  exists el q,
    FPS.elapsed (FPS.mk (Some 1000000) (Some 3000000) 10) = Some el /\
    (el == 2)%Q /\
    FPS.fps (FPS.mk (Some 1000000) (Some 3000000) 10) = Some q /\
    (q == 5)%Q.
Proof.
  destruct (fps_zero_or_quotient (FPS.mk (Some 1000000) (Some 3000000) 10)
              1000000 3000000 eq_refl eq_refl)
    as (el & Hel & Hsec & _ & Hq).
  destruct (Hq ltac:(discriminate)) as (_ & q & Hfps & Hquot & _).
  exists el, q. split; [exact Hel|].
  split; [rewrite Hsec; reflexivity|].
  split; [exact Hfps|].
  rewrite Hquot, Hsec. reflexivity.
Defined.

(** ** The capture loop *)

Lemma cap_read_open (c : VideoCapture) (r : read_result) :
  cap_opened c = true -> cap_released c = false -> cap_read c r = r.
Proof.
  intros Ho Hr. unfold cap_read. now rewrite Ho, Hr.
Qed.

(** C2, as the code has it. While the camera is not stopped, an iteration
    of the capture loop stores both components of what the device read
    returned, whether the read succeeded or not: after a failed read the
    frame slot holds the buffer returned with the failure, not the
    previous frame. Nothing else changes and the loop goes on. *)
Theorem update_stores_read_result (r : read_result) (s : WebcamVideoStream.t) :
  WebcamVideoStream.stopped s = false ->
  exists s',
    WebcamVideoStream.update_iter r s = Continue s' /\
    WebcamVideoStream.grabbed s' = fst (cap_read (WebcamVideoStream.stream s) r) /\
    WebcamVideoStream.frame s' = snd (cap_read (WebcamVideoStream.stream s) r) /\
    WebcamVideoStream.stopped s' = false /\
    WebcamVideoStream.emitted s' = WebcamVideoStream.emitted s /\
    WebcamVideoStream.current_frame s' = WebcamVideoStream.current_frame s /\
    WebcamVideoStream.FPS_counter s' = WebcamVideoStream.FPS_counter s.
Proof.
  intro Hrun. unfold WebcamVideoStream.update_iter. rewrite Hrun.
  eexists. split; [reflexivity|].
  destruct s; cbn in *. repeat split; assumption || reflexivity.
Qed.

Lemma update_stores_read_result_witness :
  exists s',
    WebcamVideoStream.update_iter failed_read sample_camera = Continue s' /\
    WebcamVideoStream.grabbed s' = false /\
    WebcamVideoStream.frame s' = None /\
    WebcamVideoStream.stopped s' = false /\
    WebcamVideoStream.emitted s' = WebcamVideoStream.emitted sample_camera /\
    WebcamVideoStream.current_frame s' = 0 /\
    WebcamVideoStream.FPS_counter s' = WebcamVideoStream.FPS_counter sample_camera.
Proof.
  exact (update_stores_read_result failed_read sample_camera eq_refl).
Defined.

(** C2 fails on the code: the sample camera holds picture 7, its next read
    fails, and the slot holds [None] afterwards. *)
Lemma failed_read_replaces_frame :
  WebcamVideoStream.stopped sample_camera = false /\
  WebcamVideoStream.frame sample_camera = Some 7%nat /\
  exists s',
    WebcamVideoStream.update_iter failed_read sample_camera = Continue s' /\
    WebcamVideoStream.grabbed s' = false /\
    WebcamVideoStream.frame s' = None /\
    WebcamVideoStream.frame s' <> WebcamVideoStream.frame sample_camera.
Proof.
  split; [reflexivity|]. split; [reflexivity|].
  eexists. split; [reflexivity|].
  split; [reflexivity|]. split; [reflexivity|]. discriminate.
Qed.

(** ** The pulse waits *)

Section PulseWait.

Variable samples : nat -> bool.

Lemma wait_after_pulse (fuel : nat) (task : Task) :
  Main.wait_for_pulse (S fuel) samples true task = Some task.
Proof. reflexivity. Qed.

(** A wait that returns has read a true sample last, and only false ones
    before it. *)
Lemma wait_returns_at_true (fuel : nat) :
  forall task task',
    Main.wait_for_pulse fuel samples false task = Some task' ->
    exists n, (reads task <= n)%nat /\
      samples n = true /\
      (forall m, (reads task <= m < n)%nat -> samples m = false) /\
      task' = mkTask (channel task) (S n) true.
Proof.
  induction fuel as [|fuel IH]; intros task task' H; [discriminate|].
  cbn [Main.wait_for_pulse] in H.
  destruct (samples (reads task)) eqn:Hd.
  - destruct fuel as [|fuel']; [discriminate|].
    rewrite wait_after_pulse in H. injection H as <-.
    exists (reads task). repeat split; auto; intros; lia.
  - apply IH in H. destruct H as (n & Hle & Ht & Hbefore & ->).
    cbn [task_read reads channel] in *.
    exists n. repeat split; auto; [lia|].
    intros m Hm.
    destruct (Nat.eq_dec m (reads task)) as [->|Hne]; [exact Hd|].
    apply Hbefore. lia.
Qed.

(** With no true sample the loop never leaves. *)
Lemma wait_blocks (fuel : nat) :
  (forall n, samples n = false) ->
  forall task, Main.wait_for_pulse fuel samples false task = None.
Proof.
  intro Hlow. induction fuel as [|fuel IH]; intro task; [reflexivity|].
  cbn [Main.wait_for_pulse]. rewrite Hlow. apply IH.
Qed.

(** The first true sample ends the loop: it is read, the task is closed,
    and the next test of the loop condition leaves. *)
Lemma wait_ends_at_first_true (k : nat) :
  forall task fuel,
    samples (reads task + k)%nat = true ->
    (forall m, (reads task <= m < reads task + k)%nat -> samples m = false) ->
    (k + 2 <= fuel)%nat ->
    Main.wait_for_pulse fuel samples false task
    = Some (mkTask (channel task) (S (reads task + k)) true).
Proof.
  induction k as [|k IH]; intros task fuel Ht Hbefore Hfuel.
  - destruct fuel as [|[|fuel]]; try lia.
    cbn [Main.wait_for_pulse].
    rewrite Nat.add_0_r in *. rewrite Ht. reflexivity.
  - destruct fuel as [|fuel]; [lia|].
    cbn [Main.wait_for_pulse].
    rewrite (Hbefore (reads task)) by lia.
    rewrite (IH (task_read task) fuel); cbn [task_read reads channel].
    + do 2 f_equal. lia.
    + replace (S (reads task) + k)%nat with (reads task + S k)%nat by lia.
      exact Ht.
    + intros m Hm. apply Hbefore. lia.
    + lia.
Qed.

End PulseWait.

(** C6. The pulse wait on either line (the ON line before the start, the
    OFF line before the stop): when it returns, a true sample has been
    read, it is the last one read and all samples before it were false;
    it returns at the first true sample; while every sample is false it
    does not return, whatever the number of iterations. *)
Theorem pulse_wait_first_true (chan : string) (samples : nat -> bool) :
  Main.read_on_pulse = (fun fuel smp =>
    Main.wait_for_pulse fuel smp false (Task_new ON)) /\
  Main.read_off_pulse = (fun fuel smp =>
    Main.wait_for_pulse fuel smp false (Task_new OFF)) /\
  (forall fuel task,
     Main.wait_for_pulse fuel samples false (Task_new chan) = Some task ->
     exists n, samples n = true /\
       (forall m, (m < n)%nat -> samples m = false) /\
       task = mkTask chan (S n) true) /\
  (forall n, samples n = true ->
     (forall m, (m < n)%nat -> samples m = false) ->
     forall fuel, (n + 2 <= fuel)%nat ->
     Main.wait_for_pulse fuel samples false (Task_new chan)
     = Some (mkTask chan (S n) true)) /\
  ((forall n, samples n = false) ->
   forall fuel,
     Main.wait_for_pulse fuel samples false (Task_new chan) = None).
Proof.
  split; [reflexivity|]. split; [reflexivity|].
  split; [|split].
  - intros fuel task H.
    apply wait_returns_at_true in H.
    destruct H as (n & _ & Ht & Hbefore & ->).
    exists n. repeat split; auto.
    intros m Hm. apply Hbefore. cbn. lia.
  - intros n Ht Hbefore fuel Hfuel.
    apply (wait_ends_at_first_true samples n (Task_new chan) fuel); auto.
    intros m Hm. apply Hbefore. cbn in Hm. lia.
  - intros Hlow fuel. apply wait_blocks. exact Hlow.
Qed.

Lemma pulse_wait_first_true_witness :
  Main.read_on_pulse 4 sample_line = Some (mkTask ON 3 true) /\
  Main.read_off_pulse 4 sample_line = Some (mkTask OFF 3 true).
Proof.
  split.
  - apply (proj1 (proj2 (proj2 (proj2 (pulse_wait_first_true ON sample_line))))
             2%nat eq_refl).
    + intros [|[|m]] Hm; [reflexivity | reflexivity | lia].
    + lia.
  - apply (proj1 (proj2 (proj2 (proj2 (pulse_wait_first_true OFF sample_line))))
             2%nat eq_refl).
    + intros [|[|m]] Hm; [reflexivity | reflexivity | lia].
    + lia.
Defined.

(** ** The rate report *)

Lemma py_round_nearest (q : Q) :
  (Qabs (q - inject_Z (py_round q)) <= 1 # 2)%Q.
Proof.
  pose proof (Qfloor_le q) as Hlo.
  pose proof (Qlt_floor q) as Hhi.
  rewrite inject_Z_plus in Hhi. change (inject_Z 1) with 1%Q in Hhi.
  apply Qabs_Qle_condition.
  unfold py_round.
  destruct (Qcompare (q - inject_Z (Qfloor q)) (1 # 2)) eqn:E.
  - apply Qeq_alt in E.
    destruct (Z.even (Qfloor q)).
    + split; lra.
    + rewrite inject_Z_plus. change (inject_Z 1) with 1%Q. split; lra.
  - apply Qlt_alt in E. split; lra.
  - apply Qgt_alt in E. rewrite inject_Z_plus.
    change (inject_Z 1) with 1%Q. split; lra.
Qed.






(** ** Stopping a camera *)

Lemma stop_run (over : Z) (s : WebcamVideoStream.t) (w : VideoWriter)
    (c : datetime) :
  WebcamVideoStream.out s = Some w ->
  WebcamVideoStream.stop over s c
  = (Some (WebcamVideoStream.set_out (Some (vw_release w))
             (WebcamVideoStream.release_stream
                (WebcamVideoStream.stop_flag c s))),
     c + grace + over).
Proof.
  intro Hout.
  unfold WebcamVideoStream.stop, WebcamVideoStream.stop_body.
  cbn [WebcamVideoStream.exec WebcamVideoStream.exec_stmt].
  unfold bind, datetime_now, time_sleep, ret, grace.
  unfold WebcamVideoStream.release_out.
  destruct s; cbn in *. rewrite Hout. reflexivity.
Qed.

(** The trace of [stop] on a camera that has a video file. *)
Lemma stop_trace_run (over : Z) (s : WebcamVideoStream.t) (w : VideoWriter)
    (c : datetime) :
  WebcamVideoStream.out s = Some w ->
  let wake := c + 5 * 1000000 + over in
  let s1 := WebcamVideoStream.set_stopped true s in
  let s2 := WebcamVideoStream.stop_flag c s in
  let s3 := WebcamVideoStream.release_stream s2 in
  let s4 := WebcamVideoStream.set_out (Some (vw_release w)) s3 in
  WebcamVideoStream.stop_trace over s c
  = [(c, WebcamVideoStream.SetStopped, Some s1);
     (c, WebcamVideoStream.FpsStop, Some s2);
     (wake, WebcamVideoStream.Sleep 5, Some s2);
     (wake, WebcamVideoStream.ReleaseStream, Some s3);
     (wake, WebcamVideoStream.ReleaseOut, Some s4)].
Proof.
  intro Hout.
  unfold WebcamVideoStream.stop_trace, WebcamVideoStream.stop_body.
  cbn [WebcamVideoStream.exec WebcamVideoStream.exec_stmt].
  unfold bind, datetime_now, time_sleep, ret.
  unfold WebcamVideoStream.release_out.
  destruct s; cbn in *. rewrite Hout. reflexivity.
Qed.

(** C9. [stop] called at instant [c] on a camera whose device and video
    file are in use runs five statements in this order: it sets the flag,
    it records [c] as the end instant of the counter, it sleeps (five
    seconds and the overrun of the sleep), it releases the device, it
    releases the video file. Up to the end of the sleep neither the
    device nor the file is released; both are when [stop] returns, and
    the file keeps its frames. The elapsed duration of the counter, and
    with it the achieved rate, runs from the start instant to [c]: the
    five seconds are not in it. *)
Theorem stop_records_end_before_grace (over : Z) (s : WebcamVideoStream.t)
    (w : VideoWriter) (t0 c : datetime) :
  0 <= over ->
  WebcamVideoStream.out s = Some w ->
  vw_released w = false ->
  cap_released (WebcamVideoStream.stream s) = false ->
  FPS._start (WebcamVideoStream.FPS_counter s) = Some t0 ->
  let wake := c + 5 * 1000000 + over in
  exists s1 s2 s3 s4,
    WebcamVideoStream.stop_trace over s c
    = [(c, WebcamVideoStream.SetStopped, Some s1);
       (c, WebcamVideoStream.FpsStop, Some s2);
       (wake, WebcamVideoStream.Sleep 5, Some s2);
       (wake, WebcamVideoStream.ReleaseStream, Some s3);
       (wake, WebcamVideoStream.ReleaseOut, Some s4)] /\
    WebcamVideoStream.stop over s c = (Some s4, wake) /\
    c + 5 * 1000000 <= wake /\
    (WebcamVideoStream.stopped s1 = true /\
     WebcamVideoStream.FPS_counter s1 = WebcamVideoStream.FPS_counter s /\
     cap_released (WebcamVideoStream.stream s1) = false /\
     WebcamVideoStream.out s1 = Some w) /\
    (WebcamVideoStream.stopped s2 = true /\
     WebcamVideoStream.FPS_counter s2
     = FPS.mk (Some t0) (Some c)
         (FPS._numFrames (WebcamVideoStream.FPS_counter s)) /\
     cap_released (WebcamVideoStream.stream s2) = false /\
     WebcamVideoStream.out s2 = Some w) /\
    (cap_released (WebcamVideoStream.stream s3) = true /\
     WebcamVideoStream.out s3 = Some w) /\
    (WebcamVideoStream.stopped s4 = true /\
     cap_released (WebcamVideoStream.stream s4) = true /\
     (exists w', WebcamVideoStream.out s4 = Some w' /\
                 vw_released w' = true /\ vw_frames w' = vw_frames w) /\
     WebcamVideoStream.FPS_counter s4 = WebcamVideoStream.FPS_counter s2) /\
    (exists el,
       FPS.elapsed (WebcamVideoStream.FPS_counter s4) = Some el /\
       (el == inject_Z (c - t0) / inject_Z 1000000)%Q) /\
    FPS.fps (WebcamVideoStream.FPS_counter s4)
    = FPS.fps (FPS.stop c (WebcamVideoStream.FPS_counter s)).
Proof.
  intros Hover Hout Hw Hcap Hstart wake.
  do 4 eexists.
  split; [apply (stop_trace_run over s w c Hout)|].
  split.
  { rewrite (stop_run over s w c Hout). unfold grace, usec_per_sec, wake.
    reflexivity. }
  split; [unfold wake; lia|].
  destruct s as [st res f vn fc o cnt fi cf nf g fr sp]; cbn in *.
  subst o. destruct cnt as [cs ce cn]; cbn in *. subst cs.
  split; [repeat split; auto|].
  split; [repeat split; auto|].
  split; [repeat split; auto|].
  split.
  { split; [reflexivity|]. split; [reflexivity|].
    split; [|reflexivity].
    eexists. split; [reflexivity|]. split; reflexivity. }
  split; [|reflexivity].
  eexists. split; [reflexivity|].
  unfold total_seconds, usec_per_sec, Qeq, Qdiv, Qmult, Qinv, inject_Z.
  cbn. unfold datetime in *. lia.
Qed.

Lemma slow_running_state :
  WebcamVideoStream.stopped slow_running = false /\
  FPS._end (WebcamVideoStream.FPS_counter slow_running) = None /\
  WebcamVideoStream.out slow_running
  = Some (mkWriter "output1.avi" "IYUV" 5 (4096, 2160)
            [Some 7%nat; Some 7%nat] false) /\
  cap_released (WebcamVideoStream.stream slow_running) = false /\
  FPS._start (WebcamVideoStream.FPS_counter slow_running) = Some 0.
Proof. vm_compute. repeat split; reflexivity. Qed.

Lemma stop_records_end_before_grace_witness :
  WebcamVideoStream.stopped slow_running = false /\
  FPS._end (WebcamVideoStream.FPS_counter slow_running) = None /\
  exists s' el,
    WebcamVideoStream.stop 0 slow_running 2000000 = (Some s', 7000000) /\
    WebcamVideoStream.stopped s' = true /\
    cap_released (WebcamVideoStream.stream s') = true /\
    (exists w', WebcamVideoStream.out s' = Some w' /\
                vw_released w' = true /\
                vw_frames w' = [Some 7%nat; Some 7%nat]) /\
    FPS.elapsed (WebcamVideoStream.FPS_counter s') = Some el /\
    (el == 2)%Q.
Proof.
  destruct slow_running_state as (Hrun & Hend & Hout & Hcap & Hstart).
  split; [exact Hrun|]. split; [exact Hend|].
  destruct (stop_records_end_before_grace 0 slow_running _ 0 2000000
              (Z.le_refl 0) Hout eq_refl Hcap Hstart)
    as (s1 & s2 & s3 & s4 & _ & Hstop & _ & _ & _ & _
        & (Hs & Hc & Hw & _) & (el & Hel & Hv) & _).
  exists s4, el. split; [exact Hstop|]. split; [exact Hs|].
  split; [exact Hc|]. split; [exact Hw|]. split; [exact Hel|].
  rewrite Hv. reflexivity.
Defined.

(** ** Stopping the four cameras *)

(** C10. The controller starts one [stop] thread per camera and joins
    them only after all four are started. From the instant [c] at which it
    begins, the teardown lasts one wait of five seconds plus overhead (the
    cost of starting the threads and the largest overrun of a sleep), not
    four waits: every camera is flagged as stopped within the thread
    start-up time and all are released when the controller goes on. *)
Theorem stop_recording_one_grace_period (cost over : nat -> Z)
    (vs1 vs2 vs3 vs4 : WebcamVideoStream.t) (w1 w2 w3 w4 : VideoWriter)
    (c : datetime) :
  (forall k, 0 <= cost k) -> (forall k, 0 <= over k) ->
  WebcamVideoStream.out vs1 = Some w1 -> WebcamVideoStream.out vs2 = Some w2 ->
  WebcamVideoStream.out vs3 = Some w3 -> WebcamVideoStream.out vs4 = Some w4 ->
  let starting := cost 1%nat + cost 2%nat + cost 3%nat + cost 4%nat in
  let overrun := Z.max (Z.max (over 1%nat) (over 2%nat))
                       (Z.max (over 3%nat) (over 4%nat)) in
  exists s1 s2 s3 s4 c',
    Main.stop_recording cost over vs1 vs2 vs3 vs4 c
    = ([Some s1; Some s2; Some s3; Some s4], c') /\
    c + grace <= c' <= c + grace + starting + overrun /\
    (starting + overrun < grace -> c' < c + 2 * grace) /\
    Forall (fun s => WebcamVideoStream.stopped s = true /\
                     cap_released (WebcamVideoStream.stream s) = true /\
                     exists w, WebcamVideoStream.out s = Some w /\
                               vw_released w = true)
           [s1; s2; s3; s4] /\
    Forall (fun s => exists e,
                FPS._end (WebcamVideoStream.FPS_counter s) = Some e /\
                c <= e <= c + starting)
           [s1; s2; s3; s4].
Proof.
  intros Hcost Hover O1 O2 O3 O4 starting overrun.
  unfold Main.stop_recording, bind, Thread_start, Thread_join, ret.
  rewrite (stop_run _ vs1 w1 _ O1), (stop_run _ vs2 w2 _ O2),
          (stop_run _ vs3 w3 _ O3), (stop_run _ vs4 w4 _ O4).
  cbn [th_result th_finish].
  do 5 eexists. split; [reflexivity|].
  pose proof (Hcost 1%nat). pose proof (Hcost 2%nat).
  pose proof (Hcost 3%nat). pose proof (Hcost 4%nat).
  pose proof (Hover 1%nat). pose proof (Hover 2%nat).
  pose proof (Hover 3%nat). pose proof (Hover 4%nat).
  unfold datetime in *. subst starting overrun. unfold grace.
  split; [lia|]. split; [lia|].
  split.
  - repeat constructor; cbn; eexists; split; reflexivity.
  - repeat constructor; cbn; eexists; (split; [reflexivity|lia]).
Qed.

Lemma slow_recording_out :
  WebcamVideoStream.out slow_recording
  = Some (mkWriter "output1.avi" "IYUV" 5 (4096, 2160)
            [Some 7%nat; Some 7%nat] false).
Proof. vm_compute. reflexivity. Qed.

Lemma paced_recording_out :
  WebcamVideoStream.out paced_recording
  = Some (mkWriter "output1.avi" "IYUV" 5 (4096, 2160)
            (repeat (Some 7%nat) 10) false).
Proof. vm_compute. reflexivity. Qed.

Lemma stop_recording_one_grace_period_witness :
  exists s1 s2 s3 s4 c',
    Main.stop_recording (fun _ => 1000) (fun _ => 0)
      slow_recording paced_recording paced_recording paced_recording 2000000
    = ([Some s1; Some s2; Some s3; Some s4], c') /\
    7000000 <= c' <= 7004000.
Proof.
  destruct (stop_recording_one_grace_period (fun _ => 1000) (fun _ => 0)
              slow_recording paced_recording paced_recording paced_recording
              _ _ _ _ 2000000
              (fun _ => ltac:(lia)) (fun _ => Z.le_refl 0)
              slow_recording_out paced_recording_out
              paced_recording_out paced_recording_out)
    as (s1 & s2 & s3 & s4 & c' & Hrun & Hc & _).
  exists s1, s2, s3, s4, c'. split; [exact Hrun|].
  unfold grace, usec_per_sec in Hc. lia.
Defined.

(** ** The frame counter *)

(** Whatever a thread or the controller does to a camera in one step, it
    either leaves the file and both counters alone, or hands one frame
    (the content of the slot) to the file and adds one to both counters. *)
Lemma step_emits (e : WebcamVideoStream.event) (s : WebcamVideoStream.t) :
  let s' := WebcamVideoStream.step e s in
  (WebcamVideoStream.emitted s' = WebcamVideoStream.emitted s /\
   WebcamVideoStream.current_frame s' = WebcamVideoStream.current_frame s /\
   FPS._numFrames (WebcamVideoStream.FPS_counter s')
   = FPS._numFrames (WebcamVideoStream.FPS_counter s))
  \/
  (WebcamVideoStream.emitted s'
   = WebcamVideoStream.emitted s ++ [WebcamVideoStream.frame s] /\
   WebcamVideoStream.current_frame s' = WebcamVideoStream.current_frame s + 1 /\
   FPS._numFrames (WebcamVideoStream.FPS_counter s')
   = FPS._numFrames (WebcamVideoStream.FPS_counter s) + 1).
Proof.
  destruct s as [st res f vn fc o cnt fi cf nf g fr sp].
  destruct e as [now|r|now| |now| | |r|now]; cbn.
  - left. auto.
  - unfold WebcamVideoStream.update_iter, WebcamVideoStream.update_body. cbn.
    destruct sp; cbn; left; auto.
  - unfold WebcamVideoStream.write_iter, WebcamVideoStream.write_body. cbn.
    destruct sp; cbn; [left; auto|].
    destruct (FPS._start cnt); cbn; [|left; auto].
    destruct (elapsed_exceeds _ _ _); cbn; [|left; auto].
    destruct o as [w|]; cbn; [right; auto | left; auto].
  - left. auto.
  - left. auto.
  - left. auto.
  - unfold WebcamVideoStream.release_out. cbn.
    destruct o as [w|]; cbn; left; auto.
  - left. auto.
  - unfold WebcamVideoStream.write_body. cbn.
    destruct (FPS._start cnt); cbn; [|left; auto].
    destruct (elapsed_exceeds _ _ _); cbn; [|left; auto].
    destruct o as [w|]; cbn; [right; auto | left; auto].
Qed.

Lemma run_app (evs evs' : list WebcamVideoStream.event)
    (s : WebcamVideoStream.t) :
  WebcamVideoStream.run (evs ++ evs') s
  = WebcamVideoStream.run evs' (WebcamVideoStream.run evs s).
Proof.
  revert s. induction evs as [|e evs IH]; intro s; cbn; [reflexivity|].
  apply IH.
Qed.

Lemma run_grows (evs : list WebcamVideoStream.event) :
  forall s,
    WebcamVideoStream.current_frame s
      <= WebcamVideoStream.current_frame (WebcamVideoStream.run evs s) /\
    exists more,
      WebcamVideoStream.emitted (WebcamVideoStream.run evs s)
      = WebcamVideoStream.emitted s ++ more.
Proof.
  induction evs as [|e evs IH]; intro s; cbn.
  - split; [lia|]. exists []. now rewrite app_nil_r.
  - destruct (IH (WebcamVideoStream.step e s)) as (Hle & more & Hmore).
    destruct (step_emits e s) as [(He & Hc & _)|(He & Hc & _)];
      rewrite Hc in Hle; rewrite He in Hmore.
    + split; [exact Hle|]. now exists more.
    + split; [lia|]. exists (WebcamVideoStream.frame s :: more).
      rewrite Hmore, <- app_assoc. reflexivity.
Qed.

Lemma run_counted (evs : list WebcamVideoStream.event) :
  forall s,
    WebcamVideoStream.current_frame s
      = Z.of_nat (List.length (WebcamVideoStream.emitted s)) ->
    FPS._numFrames (WebcamVideoStream.FPS_counter s)
      = WebcamVideoStream.current_frame s ->
    let s' := WebcamVideoStream.run evs s in
    WebcamVideoStream.current_frame s'
      = Z.of_nat (List.length (WebcamVideoStream.emitted s')) /\
    FPS._numFrames (WebcamVideoStream.FPS_counter s')
      = WebcamVideoStream.current_frame s'.
Proof.
  induction evs as [|e evs IH]; intros s Hc Hn; cbn; [auto|].
  apply IH;
    destruct (step_emits e s) as [(He & Hc' & Hn')|(He & Hc' & Hn')];
    rewrite ?He, ?Hc', ?Hn', ?List.length_app; cbn; lia.
Qed.

Lemma camera_setup_fresh (a : Main.args) (src : Z) (path : string)
    (cam : bool * read_result) (vs : WebcamVideoStream.t) :
  Main.camera_setup a src path cam = Some vs ->
  WebcamVideoStream.current_frame vs = 0 /\
  WebcamVideoStream.emitted vs = [] /\
  FPS._numFrames (WebcamVideoStream.FPS_counter vs) = 0 /\
  WebcamVideoStream.stopped vs = false /\
  FPS._start (WebcamVideoStream.FPS_counter vs) = None /\
  WebcamVideoStream.fps vs = Main.fps a /\
  Main.fps a <> 0 /\
  WebcamVideoStream.frame_index vs = (1 / inject_Z (Main.fps a))%Q /\
  WebcamVideoStream.out vs
  = Some (VideoWriter_new path (Main.codec a) (Main.fps a) (4096, 2160)) /\
  cap_released (WebcamVideoStream.stream vs) = false /\
  cap_opened (WebcamVideoStream.stream vs) = fst cam.
Proof.
  unfold Main.camera_setup. cbn.
  destruct (Z.eqb_spec (Main.fps a) 0) as [|Hne]; [discriminate|].
  intros [= <-]. cbn. repeat split; auto.
Qed.

(** C7. The count of emitted frames of a camera starts at 0 when the
    controller has set the camera up; every step of every thread either
    leaves it alone or adds exactly one while handing exactly one frame to
    the file, appended after the earlier ones; so after any run the count
    is the number of frames handed to the file (and the count kept by the
    FPS counter), and it never decreases, while the file only grows at
    its end. *)
Theorem emitted_count_monotone (a : Main.args) (src : Z) (path : string)
    (cam : bool * read_result) (vs : WebcamVideoStream.t)
    (evs : list WebcamVideoStream.event) (e : WebcamVideoStream.event)
    (evs' : list WebcamVideoStream.event) :
  Main.camera_setup a src path cam = Some vs ->
  let s := WebcamVideoStream.run evs vs in
  let s' := WebcamVideoStream.step e s in
  WebcamVideoStream.current_frame vs = 0 /\
  WebcamVideoStream.emitted vs = [] /\
  WebcamVideoStream.current_frame s
    = Z.of_nat (List.length (WebcamVideoStream.emitted s)) /\
  FPS._numFrames (WebcamVideoStream.FPS_counter s)
    = WebcamVideoStream.current_frame s /\
  ((WebcamVideoStream.emitted s' = WebcamVideoStream.emitted s /\
    WebcamVideoStream.current_frame s' = WebcamVideoStream.current_frame s)
   \/
   (WebcamVideoStream.emitted s'
    = WebcamVideoStream.emitted s ++ [WebcamVideoStream.frame s] /\
    WebcamVideoStream.current_frame s'
    = WebcamVideoStream.current_frame s + 1)) /\
  WebcamVideoStream.current_frame s
    <= WebcamVideoStream.current_frame (WebcamVideoStream.run evs' s) /\
  exists more,
    WebcamVideoStream.emitted (WebcamVideoStream.run evs' s)
    = WebcamVideoStream.emitted s ++ more.
Proof.
  intros Hsetup s s'.
  destruct (camera_setup_fresh _ _ _ _ _ Hsetup) as (Hc & He & Hn & _).
  split; [exact Hc|]. split; [exact He|].
  destruct (run_counted evs vs) as [Hcount Hnum].
  { rewrite Hc, He. reflexivity. }
  { rewrite Hn, Hc. reflexivity. }
  split; [exact Hcount|]. split; [exact Hnum|].
  split.
  - destruct (step_emits e s) as [(H1 & H2 & _)|(H1 & H2 & _)]; auto.
  - apply run_grows.
Qed.

Lemma emitted_count_monotone_witness :
  exists vs,
    Main.camera_setup sample_args 0 "output1.avi" (true, good_read) = Some vs /\
    WebcamVideoStream.current_frame
      (WebcamVideoStream.run
         [WebcamVideoStream.EvStart 0; WebcamVideoStream.EvWrite 1000000] vs)
    = 1.
Proof.
  eexists. split; [reflexivity|].
  pose proof (emitted_count_monotone sample_args 0 "output1.avi"
                (true, good_read) _
                [WebcamVideoStream.EvStart 0; WebcamVideoStream.EvWrite 1000000]
                (WebcamVideoStream.EvWrite 2000000) [] eq_refl) as H.
  cbv zeta in H. destruct H as (_ & _ & Hc & _).
  rewrite Hc. vm_compute. reflexivity.
Defined.

(** ** The comparison of the write loop *)

Lemma elapsed_exceeds_cases (d : timedelta) (fi : Q) (n : Z) :
  ((fi * inject_Z n < total_seconds d)%Q -> elapsed_exceeds d fi n = true) /\
  ((total_seconds d < fi * inject_Z n)%Q -> elapsed_exceeds d fi n = false) /\
  ((fi * inject_Z n == total_seconds d)%Q ->
   elapsed_exceeds d fi n = float_exceeds d fi n).
Proof.
  unfold elapsed_exceeds. repeat split; intro H.
  - rewrite (proj1 (Qlt_alt _ _) H). reflexivity.
  - rewrite (proj1 (Qgt_alt _ _) H). reflexivity.
  - rewrite (proj1 (Qeq_alt _ _) H). reflexivity.
Qed.

(** The two sides of the comparison, on integers: for a rate [f > 0],
    [(1 / f) * count] against the elapsed seconds is [count] frame
    intervals against the elapsed microseconds. *)
Lemma pace_compare (f c : Z) (d : timedelta) :
  0 < f ->
  ((1 / inject_Z f) * inject_Z c ?= total_seconds d)%Q
  = (c * Zpos usec_per_sec ?= d * f).
Proof.
  intro Hf. destruct f as [|p|p]; try lia.
  unfold Qcompare, total_seconds, usec_per_sec. cbn.
  rewrite Pos.mul_1_r. destruct c; reflexivity.
Qed.

Lemma pace_test (f c : Z) (d : timedelta) :
  0 < f ->
  (c * Zpos usec_per_sec < d * f -> elapsed_exceeds d (1 / inject_Z f) c = true) /\
  (d * f < c * Zpos usec_per_sec -> elapsed_exceeds d (1 / inject_Z f) c = false) /\
  (c * Zpos usec_per_sec = d * f ->
   elapsed_exceeds d (1 / inject_Z f) c = float_exceeds d (1 / inject_Z f) c) /\
  (elapsed_exceeds d (1 / inject_Z f) c = true -> c * Zpos usec_per_sec <= d * f) /\
  (elapsed_exceeds d (1 / inject_Z f) c = false -> d * f <= c * Zpos usec_per_sec).
Proof.
  intro Hf. unfold elapsed_exceeds. rewrite (pace_compare f c d Hf).
  destruct (Z.compare_spec (c * Zpos usec_per_sec) (d * f)) as [H|H|H];
    repeat split; intros; try reflexivity; try discriminate; lia.
Qed.

Lemma floor_rate (d : timedelta) (f : Z) :
  Qfloor (total_seconds d * inject_Z f) = (d * f) / Zpos usec_per_sec.
Proof. reflexivity. Qed.

(** One iteration of the write loop of a recording camera. *)
Lemma write_iter_recording (t0 f now : Z) (s : WebcamVideoStream.t) :
  0 < f -> recording t0 f s ->
  exists s',
    WebcamVideoStream.write_iter now s = Continue s' /\
    recording t0 f s' /\
    ((elapsed_exceeds (now - t0) (1 / inject_Z f)
        (WebcamVideoStream.current_frame s) = true /\
      WebcamVideoStream.current_frame s * Zpos usec_per_sec <= (now - t0) * f /\
      WebcamVideoStream.current_frame s'
      = WebcamVideoStream.current_frame s + 1 /\
      WebcamVideoStream.emitted s'
      = WebcamVideoStream.emitted s ++ [WebcamVideoStream.frame s])
     \/
     (elapsed_exceeds (now - t0) (1 / inject_Z f)
        (WebcamVideoStream.current_frame s) = false /\
      (now - t0) * f <= WebcamVideoStream.current_frame s * Zpos usec_per_sec /\
      s' = s)).
Proof.
  intros Hf (Hrun & Hstart & (w & Hout) & Hidx).
  unfold WebcamVideoStream.write_iter, WebcamVideoStream.write_body.
  rewrite Hrun, Hstart, Hidx.
  destruct (pace_test f (WebcamVideoStream.current_frame s) (now - t0) Hf)
    as (_ & _ & _ & Htrue & Hfalse).
  destruct (elapsed_exceeds (now - t0) (1 / inject_Z f)
              (WebcamVideoStream.current_frame s)) eqn:Htest.
  - rewrite Hout. eexists. split; [reflexivity|].
    specialize (Htrue eq_refl).
    destruct s as [st res fp vn fc o cnt fi cf nf g fr sp]; cbn in *.
    subst o. split.
    + unfold recording; cbn. repeat split; auto. eexists; reflexivity.
    + left. repeat split; auto.
  - exists s. split; [reflexivity|]. split.
    + unfold recording. repeat split; auto. exists w; exact Hout.
    + right. split; [reflexivity|]. split; [exact (Hfalse eq_refl) | reflexivity].
Qed.

Lemma update_keeps_recording (t0 f : Z) (r : read_result)
    (s : WebcamVideoStream.t) :
  recording t0 f s ->
  let s' := WebcamVideoStream.step (WebcamVideoStream.EvUpdate r) s in
  recording t0 f s' /\
  WebcamVideoStream.current_frame s' = WebcamVideoStream.current_frame s.
Proof.
  intros (Hrun & Hstart & (w & Hout) & Hidx).
  destruct s as [st res fp vn fc o cnt fi cf nf g fr sp]; cbn in *.
  subst sp. cbn. unfold recording; cbn.
  repeat split; auto. exists w; exact Hout.
Qed.

Lemma loop_steps_recording (t0 f : Z) (evs : list WebcamVideoStream.event) :
  0 < f ->
  forall s,
    forallb is_loop_step evs = true ->
    recording t0 f s -> recording t0 f (WebcamVideoStream.run evs s).
Proof.
  intro Hf. induction evs as [|e evs IH]; intros s Hall Hrec; [exact Hrec|].
  cbn [forallb] in Hall. apply andb_true_iff in Hall.
  destruct Hall as [He Hall].
  cbn [WebcamVideoStream.run]. apply IH; [exact Hall|].
  destruct e as [now|r|now| |now| | |r|now]; try discriminate He.
  - exact (proj1 (update_keeps_recording t0 f r s Hrec)).
  - cbn [WebcamVideoStream.step].
    destruct (write_iter_recording t0 f now s Hf Hrec) as (s1 & -> & Hrec1 & _).
    exact Hrec1.
  - exact Hrec.
Qed.

Lemma started_camera_recording (a : Main.args) (src : Z) (path : string)
    (cam : bool * read_result) (vs : WebcamVideoStream.t) (t0 : datetime) :
  Main.camera_setup a src path cam = Some vs ->
  recording t0 (Main.fps a) (WebcamVideoStream.start t0 vs) /\
  WebcamVideoStream.current_frame (WebcamVideoStream.start t0 vs) = 0.
Proof.
  intro Hsetup.
  destruct (camera_setup_fresh _ _ _ _ _ Hsetup)
    as (Hc & _ & _ & St & _ & _ & _ & Hidx & O & _).
  split; [|exact Hc].
  unfold recording. split; [exact St|]. split; [reflexivity|].
  split; [eexists; exact O | exact Hidx].
Qed.

(** ** What the write loop emits *)

Lemma loop_step_slot (e : WebcamVideoStream.event) (s : WebcamVideoStream.t) :
  is_loop_step e = true ->
  WebcamVideoStream.stopped s = false ->
  let s' := WebcamVideoStream.step e s in
  WebcamVideoStream.stopped s' = false /\
  WebcamVideoStream.stream s' = WebcamVideoStream.stream s /\
  WebcamVideoStream.frame s'
  = match e with
    | WebcamVideoStream.EvUpdate r => snd (cap_read (WebcamVideoStream.stream s) r)
    | _ => WebcamVideoStream.frame s
    end.
Proof.
  destruct s as [st res f vn fc o cnt fi cf nf g fr sp].
  destruct e as [now|r|now| |now| | |r|now]; cbn; try discriminate;
    intros _ ->; auto.
  unfold WebcamVideoStream.write_iter, WebcamVideoStream.write_body. cbn.
  destruct (FPS._start cnt); cbn; auto.
  destruct (elapsed_exceeds _ _ _); cbn; auto.
  destruct o; cbn; auto.
Qed.

(** While the camera runs, the slot holds what the most recent iteration
    of the capture loop got from the device. *)
Lemma loop_steps_slot (opened : bool) (evs : list WebcamVideoStream.event) :
  forall s,
    forallb is_loop_step evs = true ->
    WebcamVideoStream.stopped s = false ->
    cap_opened (WebcamVideoStream.stream s) = opened ->
    cap_released (WebcamVideoStream.stream s) = false ->
    WebcamVideoStream.frame (WebcamVideoStream.run evs s)
    = latest opened (WebcamVideoStream.frame s) evs.
Proof.
  induction evs as [|e evs IH]; intros s Hall Hrun Hopen Hrel; [reflexivity|].
  cbn [forallb] in Hall. apply andb_true_iff in Hall.
  destruct Hall as [He Hall].
  destruct (loop_step_slot e s He Hrun) as (Hrun' & Hstream & Hframe).
  cbn [WebcamVideoStream.run].
  rewrite (IH (WebcamVideoStream.step e s) Hall Hrun');
    [| rewrite Hstream; exact Hopen | rewrite Hstream; exact Hrel].
  rewrite Hframe.
  destruct e as [now|r|now| |now| | |r|now]; try discriminate He;
    cbn [latest]; try reflexivity.
  unfold cap_read, delivered. rewrite Hopen, Hrel.
  destruct opened; reflexivity.
Qed.

Lemma camera_setup_slot (a : Main.args) (src : Z) (path : string)
    (cam : bool * read_result) (vs : WebcamVideoStream.t) :
  Main.camera_setup a src path cam = Some vs ->
  WebcamVideoStream.frame vs = first_buffer cam.
Proof.
  intro Hsetup. unfold Main.camera_setup in Hsetup. cbn in Hsetup.
  destruct (Main.fps a =? 0); [discriminate|].
  injection Hsetup as <-. cbn. unfold cap_read, first_buffer. cbn.
  rewrite andb_true_r. destruct (fst cam); reflexivity.
Qed.

(** A camera that is set up, started at [c] and not stopped hands its slot
    to the file at the first iteration of its write loop after [c]. *)
Lemma started_camera_emits (a : Main.args) (src : Z) (path : string)
    (cam : bool * read_result) (vs : WebcamVideoStream.t) (c now : datetime) :
  Main.camera_setup a src path cam = Some vs ->
  c < now ->
  WebcamVideoStream.emitted
    (WebcamVideoStream.step (WebcamVideoStream.EvWrite now)
       (WebcamVideoStream.start c vs))
  = [first_buffer cam].
Proof.
  intros Hsetup Hnow.
  pose proof (camera_setup_slot _ _ _ _ _ Hsetup) as Hslot.
  destruct (camera_setup_fresh _ _ _ _ _ Hsetup)
    as (Hc & He & _ & St & _ & _ & _ & Hidx & O & _).
  destruct vs as [st res fp vn fc o cnt fi cf nf g fr sp]; cbn in *.
  subst sp cf fi o fr.
  unfold WebcamVideoStream.write_iter, WebcamVideoStream.write_body. cbn.
  rewrite (proj1 (elapsed_exceeds_cases (now - c) (1 / inject_Z (Main.fps a)) 0)).
  - reflexivity.
  - unfold Qlt, total_seconds. cbn. rewrite Z.mul_0_r. cbn.
    unfold datetime in *. apply Z.mul_pos_pos; [lia | apply Pos2Z.is_pos].
Qed.

(** C3, as the code has it. The constructor reads one frame before the
    loops can be started, so the slot is assigned from the start, with
    whatever that read returned. While the camera records, the slot holds
    the buffer of the most recent read of the device (the constructor's,
    or the latest iteration of the capture loop; the empty buffer when
    that read failed or the device is missing); a step hands at most one
    buffer to the file, and that buffer is the content of the slot; the
    write loop does so whenever a frame is due, and already at its first
    iteration after the start, whether or not any read has succeeded:
    what it does is the same whatever the flag [grabbed] says. *)
Theorem writer_emits_slot_unguarded (a : Main.args) (src : Z) (path : string)
    (cam : bool * read_result) (vs : WebcamVideoStream.t) (c : datetime)
    (evs : list WebcamVideoStream.event) (e : WebcamVideoStream.event) :
  Main.camera_setup a src path cam = Some vs ->
  forallb is_loop_step evs = true ->
  let s := WebcamVideoStream.run evs (WebcamVideoStream.start c vs) in
  let slot := latest (fst cam) (first_buffer cam) evs in
  WebcamVideoStream.frame vs = first_buffer cam /\
  WebcamVideoStream.frame s = slot /\
  (WebcamVideoStream.emitted (WebcamVideoStream.step e s)
   = WebcamVideoStream.emitted s
   \/ WebcamVideoStream.emitted (WebcamVideoStream.step e s)
      = WebcamVideoStream.emitted s ++ [slot]) /\
  (forall now,
     0 < Main.fps a ->
     WebcamVideoStream.current_frame s * 1000000 < (now - c) * Main.fps a ->
     WebcamVideoStream.emitted
       (WebcamVideoStream.step (WebcamVideoStream.EvWrite now) s)
     = WebcamVideoStream.emitted s ++ [slot]) /\
  (forall now, c < now ->
     WebcamVideoStream.emitted
       (WebcamVideoStream.step (WebcamVideoStream.EvWrite now)
          (WebcamVideoStream.start c vs))
     = [first_buffer cam]) /\
  (forall g now s0,
     WebcamVideoStream.emitted
       (WebcamVideoStream.step (WebcamVideoStream.EvWrite now)
          (WebcamVideoStream.set_read (g, WebcamVideoStream.frame s0) s0))
     = WebcamVideoStream.emitted
         (WebcamVideoStream.step (WebcamVideoStream.EvWrite now) s0)).
Proof.
  intros Hsetup Hevs s slot.
  pose proof (camera_setup_slot _ _ _ _ _ Hsetup) as Hfirst.
  destruct (camera_setup_fresh _ _ _ _ _ Hsetup)
    as (_ & _ & _ & St & _ & _ & _ & _ & _ & Rel & Open).
  assert (Hslot : WebcamVideoStream.frame s = slot).
  { subst s slot.
    rewrite (loop_steps_slot (fst cam) evs (WebcamVideoStream.start c vs)
               Hevs St Open Rel).
    cbn. rewrite Hfirst. reflexivity. }
  split; [exact Hfirst|]. split; [exact Hslot|].
  split; [|split; [|split]].
  - destruct (step_emits e s) as [(He & _)|(He & _)];
      [left; exact He | right; rewrite <- Hslot; exact He].
  - intros now Hf Hdue.
    destruct (started_camera_recording a src path cam vs c Hsetup) as [Hrec _].
    pose proof (loop_steps_recording c (Main.fps a) evs Hf _ Hevs Hrec) as Hrs.
    fold s in Hrs. cbn [WebcamVideoStream.step].
    destruct (write_iter_recording c (Main.fps a) now s Hf Hrs)
      as (s1 & -> & _ & [(_ & _ & _ & He)|(_ & Hge & _)]).
    + cbn [WebcamVideoStream.after]. rewrite <- Hslot. exact He.
    + exfalso. unfold usec_per_sec in Hge. unfold datetime in *. lia.
  - intros now Hnow. exact (started_camera_emits a src path cam vs c now Hsetup Hnow).
  - intros g now s0.
    destruct s0 as [st res f vn fc o cnt fi cf nf gr fr sp]. cbn.
    unfold WebcamVideoStream.write_iter, WebcamVideoStream.write_body. cbn.
    destruct sp; cbn; [reflexivity|].
    destruct (FPS._start cnt); cbn; [|reflexivity].
    destruct (elapsed_exceeds _ _ _); cbn; [|reflexivity].
    destruct o; reflexivity.
Qed.

Lemma writer_emits_slot_unguarded_witness :
  exists vs,
    Main.camera_setup sample_args 0 "output1.avi" (true, good_read) = Some vs /\
    WebcamVideoStream.frame vs = Some 7%nat /\
    WebcamVideoStream.emitted
      (WebcamVideoStream.step (WebcamVideoStream.EvWrite 200001)
         (WebcamVideoStream.run
            [WebcamVideoStream.EvWrite 1;
             WebcamVideoStream.EvUpdate (true, Some 9%nat)]
            (WebcamVideoStream.start 0 vs)))
    = [Some 7%nat; Some 9%nat].
Proof.
  eexists. split; [reflexivity|].
  pose proof (writer_emits_slot_unguarded sample_args 0 "output1.avi"
                (true, good_read) _ 0
                [WebcamVideoStream.EvWrite 1;
                 WebcamVideoStream.EvUpdate (true, Some 9%nat)]
                WebcamVideoStream.EvRead eq_refl eq_refl) as H.
  cbv zeta in H. destruct H as (Hfirst & _ & _ & Hdue & _).
  split; [exact Hfirst|].
  rewrite (Hdue 200001).
  - vm_compute. reflexivity.
  - reflexivity.
  - vm_compute. reflexivity.
Defined.

(** C3 fails on the code: the first read of this camera failed and no
    other read has been made, yet the first iteration of the write loop
    hands the (empty) slot to the file. *)
Lemma writer_emits_without_a_frame :
  WebcamVideoStream.grabbed blind_camera = false /\
  WebcamVideoStream.frame blind_camera = None /\
  WebcamVideoStream.emitted blind_camera = [] /\
  WebcamVideoStream.emitted
    (WebcamVideoStream.step (WebcamVideoStream.EvWrite 1) blind_camera)
  = [None].
Proof. vm_compute. repeat split; reflexivity. Qed.

(** ** Session setup *)

Lemma fourcc_of_four (codec : string) :
  String.length codec = 4%nat -> Main.VideoWriter_fourcc codec = Some codec.
Proof.
  intro H. unfold Main.VideoWriter_fourcc. rewrite H. reflexivity.
Qed.

Lemma fourcc_raises (codec : string) :
  Main.VideoWriter_fourcc codec = None <-> String.length codec <> 4%nat.
Proof.
  unfold Main.VideoWriter_fourcc.
  destruct (Nat.eqb_spec (String.length codec) 4) as [E|E]; split; intro H.
  - discriminate H.
  - contradiction.
  - exact E.
  - reflexivity.
Qed.








(** ** The pace of the write loop *)

(** However the iterations fall before [stop], the count stays within one
    frame of the frame intervals elapsed at [stop]. *)
Lemma write_loop_upper (t0 f stop : Z) (nows : list datetime) :
  0 < f ->
  Forall (fun now => now <= stop) nows ->
  forall s,
    recording t0 f s ->
    (WebcamVideoStream.current_frame s = 0 \/
     (WebcamVideoStream.current_frame s - 1) * Zpos usec_per_sec
     <= (stop - t0) * f) ->
    let s' := WebcamVideoStream.write_loop nows s in
    WebcamVideoStream.current_frame s' = 0 \/
    (WebcamVideoStream.current_frame s' - 1) * Zpos usec_per_sec
    <= (stop - t0) * f.
Proof.
  intros Hf Hall. induction Hall as [|now rest Hnow _ IH];
    intros s Hrec Hc; cbn; [exact Hc|].
  destruct (write_iter_recording t0 f now s Hf Hrec)
    as (s1 & -> & Hrec1 & [(_ & Hle & Hc1 & _)|(_ & _ & ->)]).
  - apply IH; [exact Hrec1|]. right. rewrite Hc1.
    unfold datetime in *. nia.
  - apply IH; assumption.
Qed.

(** When the loop comes round at least once per frame interval, the count
    never falls behind the elapsed frame intervals. *)
Lemma write_loop_lower (t0 f stop : Z) (nows : list datetime) :
  0 < f ->
  forall prev s,
    recording t0 f s ->
    dense f prev nows stop ->
    (prev - t0) * f <= WebcamVideoStream.current_frame s * Zpos usec_per_sec ->
    (stop - t0) * f - Zpos usec_per_sec
    <= WebcamVideoStream.current_frame (WebcamVideoStream.write_loop nows s)
       * Zpos usec_per_sec.
Proof.
  intro Hf. induction nows as [|now rest IH]; intros prev s Hrec Hd Hc.
  - cbn in *. unfold datetime in *. lia.
  - cbn [dense] in Hd. destruct Hd as (Hle & Hgap & Hd).
    cbn [WebcamVideoStream.write_loop].
    destruct (write_iter_recording t0 f now s Hf Hrec)
      as (s1 & -> & Hrec1 & [(_ & Hlt & Hc1 & _)|(_ & Hge & ->)]).
    + apply (IH now); [exact Hrec1 | exact Hd |].
      rewrite Hc1. unfold datetime in *. lia.
    + apply (IH now); [exact Hrec | exact Hd | exact Hge].
Qed.

Lemma dense_before_stop (f stop : Z) (nows : list datetime) :
  forall prev, dense f prev nows stop ->
    prev <= stop /\ Forall (fun now => now <= stop) nows.
Proof.
  induction nows as [|now rest IH]; intros prev Hd; cbn in Hd.
  - split; [tauto | constructor].
  - destruct Hd as (Hle & _ & Hd). destruct (IH now Hd) as [Hs Hall].
    unfold datetime in *. split; [lia|]. constructor; assumption.
Qed.

(** The iterations of the write loop of a recording camera, as steps. *)
Lemma run_write_loop (t0 f : Z) (nows : list datetime) :
  0 < f ->
  forall s,
    recording t0 f s ->
    WebcamVideoStream.run (map WebcamVideoStream.EvWrite nows) s
    = WebcamVideoStream.write_loop nows s.
Proof.
  intro Hf. induction nows as [|now rest IH]; intros s Hrec; [reflexivity|].
  cbn [map WebcamVideoStream.run WebcamVideoStream.write_loop
       WebcamVideoStream.step].
  destruct (write_iter_recording t0 f now s Hf Hrec) as (s1 & -> & Hrec1 & _).
  cbn [WebcamVideoStream.after]. apply IH. exact Hrec1.
Qed.

(** A recording from start to stop: what the write loop has emitted when
    the flag is set, and at most one frame more, from the iteration in
    flight. *)
Lemma session_run (t0 f stop : Z) (nows : list datetime)
    (late : option datetime) (s : WebcamVideoStream.t) :
  0 < f -> recording t0 f s ->
  let s1 := WebcamVideoStream.write_loop nows s in
  let s2 := WebcamVideoStream.run (session nows stop late) s in
  s2 = WebcamVideoStream.run (in_flight_write late)
         (WebcamVideoStream.stop_flag stop s1) /\
  WebcamVideoStream.current_frame s1 <= WebcamVideoStream.current_frame s2
  <= WebcamVideoStream.current_frame s1 + 1 /\
  (late = None -> s2 = WebcamVideoStream.stop_flag stop s1) /\
  FPS._end (WebcamVideoStream.FPS_counter s2) = Some stop /\
  FPS._start (WebcamVideoStream.FPS_counter s2)
  = FPS._start (WebcamVideoStream.FPS_counter s1) /\
  WebcamVideoStream.fps s2 = WebcamVideoStream.fps s1.
Proof.
  intros Hf Hrec s1 s2.
  assert (H2 : s2 = WebcamVideoStream.run (in_flight_write late)
                      (WebcamVideoStream.stop_flag stop s1)).
  { subst s1 s2. unfold session. rewrite run_app.
    rewrite (run_write_loop t0 f nows Hf s Hrec). reflexivity. }
  split; [exact H2|]. rewrite H2. clear H2 s2.
  generalize s1. clear. intro s1.
  destruct late as [now|]; cbn [in_flight_write WebcamVideoStream.run].
  - pose proof (step_emits (WebcamVideoStream.EvWriteInFlight now)
                  (WebcamVideoStream.stop_flag stop s1)) as Hstep.
    cbv zeta in Hstep.
    assert (Hkeep : WebcamVideoStream.FPS_counter
                      (WebcamVideoStream.step
                         (WebcamVideoStream.EvWriteInFlight now)
                         (WebcamVideoStream.stop_flag stop s1))
                    = WebcamVideoStream.FPS_counter
                        (WebcamVideoStream.stop_flag stop s1)
                    \/ WebcamVideoStream.FPS_counter
                         (WebcamVideoStream.step
                            (WebcamVideoStream.EvWriteInFlight now)
                            (WebcamVideoStream.stop_flag stop s1))
                       = FPS.update
                           (WebcamVideoStream.FPS_counter
                              (WebcamVideoStream.stop_flag stop s1))).
    { destruct s1 as [st res fp vn fc o cnt fi cf nf g fr sp]. cbn.
      unfold WebcamVideoStream.write_body. cbn.
      destruct (FPS._start cnt); cbn; auto.
      destruct (elapsed_exceeds _ _ _); cbn; auto.
      destruct o; cbn; auto. }
    assert (Hfps : WebcamVideoStream.fps
                     (WebcamVideoStream.step
                        (WebcamVideoStream.EvWriteInFlight now)
                        (WebcamVideoStream.stop_flag stop s1))
                   = WebcamVideoStream.fps s1).
    { destruct s1 as [st res fp vn fc o cnt fi cf nf g fr sp]. cbn.
      unfold WebcamVideoStream.write_body. cbn.
      destruct (FPS._start cnt); cbn; auto.
      destruct (elapsed_exceeds _ _ _); cbn; auto.
      destruct o; cbn; auto. }
    change (WebcamVideoStream.current_frame (WebcamVideoStream.stop_flag stop s1))
      with (WebcamVideoStream.current_frame s1) in Hstep.
    split; [destruct Hstep as [(_ & Hc & _)|(_ & Hc & _)]; lia|].
    split; [discriminate|].
    split; [destruct Hkeep as [-> | ->]; reflexivity|].
    split; [destruct Hkeep as [-> | ->]; reflexivity | exact Hfps].
  - split; [cbn; lia|]. split; [reflexivity|]. repeat split; reflexivity.
Qed.

(** C1, as the code has it. An iteration of the write loop of a recording
    camera compares the time elapsed since the start of the FPS counter
    with [frame_index * current_frame], where [frame_index = 1 / fps]:
    when the elapsed time is the larger it hands the current frame to the
    file and adds one to the count, when it is the smaller it does
    nothing, and when the two are equal what it does depends on how the
    floats are rounded. Hence, for a rate [f > 0] and a recording stopped
    [T] seconds after its start, the count is at most [floor (T * f) + 2]
    however the iterations fall, and at most [floor (T * f) + 1] when no
    iteration is in flight at the stop; it is also at least
    [floor (T * f) - 1] when the loop comes round at least once per frame
    interval. A slower write loop delivers fewer frames. *)
Theorem write_loop_paces_output (a : Main.args) (src : Z) (path : string)
    (cam : bool * read_result) (vs : WebcamVideoStream.t)
    (t0 stop : datetime) (nows : list datetime) (late : option datetime) :
  Main.camera_setup a src path cam = Some vs ->
  0 < Main.fps a ->
  let f := Main.fps a in
  let count :=
    WebcamVideoStream.current_frame
      (WebcamVideoStream.run (session nows stop late)
         (WebcamVideoStream.start t0 vs)) in
  let slots := Qfloor (total_seconds (stop - t0) * inject_Z f) in
  WebcamVideoStream.frame_index vs = (1 / inject_Z f)%Q /\
  (forall now s, recording t0 f s ->
     exists s',
       WebcamVideoStream.write_iter now s = Continue s' /\
       ((WebcamVideoStream.frame_index s
           * inject_Z (WebcamVideoStream.current_frame s)
         < total_seconds (now - t0)%Z)%Q ->
        WebcamVideoStream.emitted s'
        = WebcamVideoStream.emitted s ++ [WebcamVideoStream.frame s] /\
        WebcamVideoStream.current_frame s'
        = WebcamVideoStream.current_frame s + 1) /\
       ((total_seconds (now - t0)%Z
         < WebcamVideoStream.frame_index s
           * inject_Z (WebcamVideoStream.current_frame s))%Q ->
        s' = s) /\
       ((WebcamVideoStream.frame_index s
           * inject_Z (WebcamVideoStream.current_frame s)
         == total_seconds (now - t0)%Z)%Q ->
        if float_exceeds (now - t0) (WebcamVideoStream.frame_index s)
             (WebcamVideoStream.current_frame s)
        then WebcamVideoStream.emitted s'
             = WebcamVideoStream.emitted s ++ [WebcamVideoStream.frame s] /\
             WebcamVideoStream.current_frame s'
             = WebcamVideoStream.current_frame s + 1
        else s' = s)) /\
  (t0 <= stop -> Forall (fun now => now <= stop) nows ->
   count <= slots + 2 /\ (late = None -> count <= slots + 1)) /\
  (dense f t0 nows stop ->
   slots - 1 <= count <= slots + 2 /\ (late = None -> count <= slots + 1)).
Proof.
  intros Hsetup Hf f count slots.
  destruct (started_camera_recording a src path cam vs t0 Hsetup)
    as [Hrec Hzero].
  destruct (camera_setup_fresh _ _ _ _ _ Hsetup)
    as (_ & _ & _ & _ & _ & _ & _ & Hidx & _).
  destruct (session_run t0 f stop nows late _ Hf Hrec)
    as (_ & Hcount & Hnone & _).
  cbv zeta in Hcount, Hnone. fold count in Hcount.
  set (c0 := WebcamVideoStream.current_frame
               (WebcamVideoStream.write_loop nows
                  (WebcamVideoStream.start t0 vs))) in *.
  assert (Hnone' : late = None -> count = c0).
  { intro H. subst count. rewrite (Hnone H). reflexivity. }
  assert (Hupper : t0 <= stop -> Forall (fun now => now <= stop) nows ->
                   c0 <= slots + 1).
  { intros Hstop Hall. subst c0 slots. rewrite floor_rate.
    pose proof (write_loop_upper t0 f stop nows Hf Hall _ Hrec
                  (or_introl Hzero)) as Hc.
    cbv zeta in Hc. unfold datetime in *.
    destruct Hc as [->|Hc].
    - assert (0 <= (stop - t0) * f / Zpos usec_per_sec)
        by (apply Z.div_pos; [nia | reflexivity]).
      lia.
    - assert (WebcamVideoStream.current_frame
                (WebcamVideoStream.write_loop nows
                   (WebcamVideoStream.start t0 vs)) - 1
              <= (stop - t0) * f / Zpos usec_per_sec)
        by (apply Z.div_le_lower_bound; [reflexivity | lia]).
      lia. }
  split; [exact Hidx|]. split; [|split].
  - intros now s Hs.
    destruct (write_iter_recording t0 f now s Hf Hs)
      as (s' & Hit & _ & Hcase).
    exists s'. split; [exact Hit|].
    destruct Hs as (_ & _ & _ & Hfi). rewrite Hfi.
    destruct (elapsed_exceeds_cases (now - t0) (1 / inject_Z f)
                (WebcamVideoStream.current_frame s)) as (Elt & Egt & Eeq).
    split; [|split].
    + intro Hq. specialize (Elt Hq).
      destruct Hcase as [(_ & _ & Hc & He)|(Hno & _)]; [auto | congruence].
    + intro Hq. specialize (Egt Hq).
      destruct Hcase as [(Hyes & _)|(_ & _ & Heq)]; [congruence | exact Heq].
    + intro Hq. rewrite <- (Eeq Hq).
      destruct Hcase as [(-> & _ & Hc & He)|(-> & _ & Heq)]; auto.
  - intros Hstop Hall. specialize (Hupper Hstop Hall).
    split; [lia|]. intro H. rewrite (Hnone' H). exact Hupper.
  - intro Hd.
    destruct (dense_before_stop f stop nows t0 Hd) as [Hstop Hall].
    specialize (Hupper Hstop Hall).
    split; [|intro H; rewrite (Hnone' H); exact Hupper].
    split; [|lia].
    assert (slots - 1 <= c0); [|lia].
    subst c0 slots. rewrite floor_rate.
    pose proof (write_loop_lower t0 f stop nows Hf t0 _ Hrec Hd) as Hlow.
    rewrite Hzero in Hlow. unfold datetime in *.
    assert ((stop - t0) * f / Zpos usec_per_sec
            <= WebcamVideoStream.current_frame
                 (WebcamVideoStream.write_loop nows
                    (WebcamVideoStream.start t0 vs)) + 1)
      by (apply Z.div_le_upper_bound; [reflexivity | lia]).
    lia.
Qed.

Lemma paced_nows_dense : dense 5 0 paced_nows 2000000.
Proof. cbn. unfold usec_per_sec. repeat split; lia. Qed.

Lemma write_loop_paces_output_witness :
  exists vs,
    Main.camera_setup sample_args 0 "output1.avi" (true, good_read) = Some vs /\
    9 <= WebcamVideoStream.current_frame
           (WebcamVideoStream.run (session paced_nows 2000000 None)
              (WebcamVideoStream.start 0 vs)) <= 11.
Proof.
  eexists. split; [reflexivity|].
  pose proof (write_loop_paces_output sample_args 0 "output1.avi"
                (true, good_read) _ 0 2000000 paced_nows None
                eq_refl eq_refl) as H.
  cbv zeta in H. destruct H as (_ & _ & _ & Hd).
  destruct (Hd paced_nows_dense) as [[Hlow _] Hup].
  specialize (Hup eq_refl).
  change (Qfloor (total_seconds (2000000 - 0)
                  * inject_Z (Main.fps sample_args))) with 10 in Hlow, Hup.
  split; [exact Hlow | exact Hup].
Defined.

(** C1 fails on the code, in three ways. A recording at 5 frames per
    second with a camera that delivers a picture at every read:
    - the write loop came round once a second, the recording is stopped
      after 2 s and the count is 2, while [floor (T * f)] is 10;
    - the write loop came round every 0.2 s and has handed over 11 frames
      when the recording is stopped after 2.199999 s ([floor (T * f)] is
      10); the iteration in flight reads the clock 2 microseconds later
      and hands over a twelfth.
    And an exact tie is decided by the roundings: at 49 frames per second
    [(1 / 49) * 49] is below 1 in binary64, and the iteration that comes
    exactly one second after the start, with 49 frames handed over, hands
    over the fiftieth although the elapsed time does not exceed
    [frame_index * current_frame]; at 5 frames per second [(1 / 5) * 5]
    is 1 and the iteration at one second, with 5 frames handed over, does
    nothing. *)
Lemma emitted_count_leaves_claimed_range :
  (WebcamVideoStream.fps slow_recording = 5 /\
   FPS.elapsed (WebcamVideoStream.FPS_counter slow_recording)
   = Some (total_seconds 2000000) /\
   WebcamVideoStream.emitted slow_recording = [Some 7%nat; Some 7%nat] /\
   WebcamVideoStream.current_frame slow_recording = 2 /\
   Qfloor (total_seconds 2000000 * inject_Z 5) = 10 /\
   ~ (Qfloor (total_seconds 2000000 * inject_Z 5) - 1
      <= WebcamVideoStream.current_frame slow_recording
      <= Qfloor (total_seconds 2000000 * inject_Z 5) + 1)) /\
  (dense 5 0 long_nows 2199999 /\
   Qfloor (total_seconds 2199999 * inject_Z 5) = 10 /\
   WebcamVideoStream.current_frame
     (WebcamVideoStream.run (session long_nows 2199999 None) sample_camera)
   = 11 /\
   WebcamVideoStream.current_frame
     (WebcamVideoStream.run (session long_nows 2199999 (Some 2200001))
        sample_camera)
   = 12) /\
  (((1 / inject_Z 49) * inject_Z 49 == total_seconds 1000000%Z)%Q /\
   float_exceeds 1000000 (1 / inject_Z 49) 49 = true /\
   WebcamVideoStream.current_frame
     (WebcamVideoStream.write_loop tie_nows sample_camera_49) = 49 /\
   WebcamVideoStream.current_frame
     (WebcamVideoStream.write_loop (tie_nows ++ [1000000]) sample_camera_49)
   = 50 /\
   ((1 / inject_Z 5) * inject_Z 5 == total_seconds 1000000%Z)%Q /\
   float_exceeds 1000000 (1 / inject_Z 5) 5 = false /\
   WebcamVideoStream.current_frame
     (WebcamVideoStream.write_loop
        [1; 200001; 400001; 600001; 800001] sample_camera) = 5 /\
   WebcamVideoStream.current_frame
     (WebcamVideoStream.write_loop
        [1; 200001; 400001; 600001; 800001; 1000000] sample_camera) = 5).
Proof.
  split; [|split].
  - split; [vm_compute; reflexivity|].
    split; [vm_compute; reflexivity|].
    split; [vm_compute; reflexivity|].
    split; [vm_compute; reflexivity|].
    split; [vm_compute; reflexivity|].
    intros [Hlow _]. vm_compute in Hlow. apply Hlow. reflexivity.
  - split; [cbn; unfold usec_per_sec; repeat split; lia|].
    split; [vm_compute; reflexivity|].
    split; vm_compute; reflexivity.
  - split; [reflexivity|]. split; [vm_compute; reflexivity|].
    split; [vm_compute; reflexivity|]. split; [vm_compute; reflexivity|].
    split; [reflexivity|]. split; [vm_compute; reflexivity|].
    split; vm_compute; reflexivity.
Qed.

(** * Further properties of the recorder *)

(** ** The timed wait *)

Lemma Qltb_lt (a b : Q) : Qltb a b = true <-> (a < b)%Q.
Proof. unfold Qltb. exact (Qgtb_lt b a). Qed.

(** The test of the timed wait, on integers. *)
Lemma duration_test (d : timedelta) (seconds : Z) :
  Qltb (total_seconds d) (inject_Z seconds)
  = (d <? seconds * Zpos usec_per_sec).
Proof.
  apply eq_true_iff_eq. rewrite Qltb_lt, Z.ltb_lt.
  unfold Qlt, total_seconds. cbn. unfold timedelta in *. lia.
Qed.

Section TimedWait.

Variable clock : nat -> datetime.
Variable seconds : Z.
Variable start : datetime.

Local Abbreviation due := (duration_due seconds start).

Lemma duration_loop_returns (fuel : nat) :
  forall i end_ e n,
    Main.duration_loop fuel clock seconds start i end_ = Some (e, n) ->
    due e /\ (i <= n)%nat /\
    (n = i /\ e = end_ \/
     (i < n)%nat /\ e = clock (n - 1)%nat /\ ~ due end_ /\
     forall j, (i <= j < n - 1)%nat -> ~ due (clock j)).
Proof.
  unfold duration_due.
  induction fuel as [|fuel IH]; intros i end_ e n H; [discriminate|].
  cbn [Main.duration_loop] in H. rewrite duration_test in H.
  destruct (Z.ltb_spec (end_ - start) (seconds * Zpos usec_per_sec))
    as [Hlt|Hge].
  - apply IH in H. destruct H as (Hdue & Hle & Hcase).
    split; [exact Hdue|]. split; [lia|]. right.
    destruct Hcase as [(-> & ->)|(Hlt' & -> & Hnot & Hbefore)].
    + split; [lia|]. split; [f_equal; lia|]. split; [lia|].
      intros j Hj. lia.
    + split; [lia|]. split; [reflexivity|]. split; [lia|].
      intros j Hj. destruct (Nat.eq_dec j i) as [->|Hne]; [exact Hnot|].
      apply Hbefore. lia.
  - injection H as <- <-. split; [exact Hge|]. split; [lia|]. left. auto.
Qed.

Lemma duration_loop_blocks (fuel : nat) :
  forall i end_,
    ~ due end_ -> (forall j, (i <= j)%nat -> ~ due (clock j)) ->
    Main.duration_loop fuel clock seconds start i end_ = None.
Proof.
  unfold duration_due.
  induction fuel as [|fuel IH]; intros i end_ Hend Hnever; [reflexivity|].
  cbn [Main.duration_loop]. rewrite duration_test.
  destruct (Z.ltb_spec (end_ - start) (seconds * Zpos usec_per_sec))
    as [_|Hge]; [|contradiction].
  apply IH.
  - apply Hnever. lia.
  - intros j Hj. apply Hnever. lia.
Qed.

Lemma duration_loop_ends (k : nat) :
  forall fuel i end_,
    ~ due end_ ->
    (forall j, (i <= j < i + k)%nat -> ~ due (clock j)) ->
    due (clock (i + k)%nat) ->
    (k + 2 <= fuel)%nat ->
    Main.duration_loop fuel clock seconds start i end_
    = Some (clock (i + k)%nat, S (i + k)).
Proof.
  unfold duration_due.
  induction k as [|k IH]; intros fuel i end_ Hend Hbefore Hdue Hfuel.
  - destruct fuel as [|[|fuel]]; try lia.
    cbn [Main.duration_loop]. rewrite !duration_test.
    rewrite Nat.add_0_r in *.
    destruct (Z.ltb_spec (end_ - start) (seconds * Zpos usec_per_sec));
      [|lia].
    destruct (Z.ltb_spec (clock i - start) (seconds * Zpos usec_per_sec));
      [lia | reflexivity].
  - destruct fuel as [|fuel]; [lia|].
    cbn [Main.duration_loop]. rewrite duration_test.
    destruct (Z.ltb_spec (end_ - start) (seconds * Zpos usec_per_sec));
      [|lia].
    rewrite (IH fuel (S i) (clock i)).
    + do 2 f_equal; [f_equal|]; lia.
    + apply Hbefore. lia.
    + intros j Hj. apply Hbefore. lia.
    + replace (S i + k)%nat with (i + S k)%nat by lia. exact Hdue.
    + lia.
Qed.

End TimedWait.

(** X1. The timed wait of the controller ends at the first clock reading (after
    the one taken as the start) that lies [seconds] seconds or more after
    the start, never earlier; the loop takes no further reading when the
    very first one qualifies (any [seconds <= 0]), and it goes on for ever
    while no reading qualifies. *)
Theorem timed_wait_ends_when_due (clock : nat -> datetime) (seconds : Z) :
  let due j := seconds * 1000000 <= clock j - clock 0%nat in
  (forall fuel e n,
     Main.wait_for_duration fuel clock seconds = Some (e, n) ->
     (2 <= n)%nat /\ e = clock (n - 1)%nat /\ due (n - 1)%nat /\
     forall j, (1 <= j < n - 1)%nat -> ~ due j) /\
  (forall j, (1 <= j)%nat -> due j ->
     (forall i, (1 <= i < j)%nat -> ~ due i) ->
     forall fuel, (j + 1 <= fuel)%nat ->
     Main.wait_for_duration fuel clock seconds = Some (clock j, S j)) /\
  ((forall j, (1 <= j)%nat -> ~ due j) ->
   forall fuel, Main.wait_for_duration fuel clock seconds = None).
Proof.
  intro due. subst due. cbv beta.
  change 1000000 with (Zpos usec_per_sec).
  unfold Main.wait_for_duration. split; [|split].
  - intros fuel e n H.
    apply duration_loop_returns in H.
    destruct H as (Hdue & Hle & [(-> & ->)|(Hlt & -> & Hnot & Hbefore)]).
    + split; [lia|]. split; [reflexivity|]. split; [exact Hdue|].
      intros j Hj. lia.
    + split; [lia|]. split; [reflexivity|]. split; [exact Hdue|].
      intros j Hj. destruct (Nat.eq_dec j 1) as [->|Hne]; [exact Hnot|].
      apply Hbefore. lia.
  - intros j Hj Hdue Hbefore fuel Hfuel.
    destruct (Nat.eq_dec j 1) as [->|Hne].
    + destruct fuel as [|fuel]; [lia|].
      cbn [Main.duration_loop]. rewrite duration_test.
      destruct (Z.ltb_spec (clock 1%nat - clock 0%nat)
                  (seconds * Zpos usec_per_sec)); [lia | reflexivity].
    + replace j with (2 + (j - 2))%nat at 1 2 by lia.
      apply duration_loop_ends.
      * apply Hbefore. lia.
      * intros i Hi. apply Hbefore. lia.
      * replace (2 + (j - 2))%nat with j by lia. exact Hdue.
      * lia.
  - intros Hnever fuel. apply duration_loop_blocks.
    + apply Hnever. lia.
    + intros j Hj. apply Hnever. lia.
Qed.

Lemma timed_wait_ends_when_due_witness :
  Main.wait_for_duration 5 half_second_clock 2 = Some (2000000, 5%nat).
Proof.
  apply (proj1 (proj2 (timed_wait_ends_when_due half_second_clock 2)) 4%nat).
  - lia.
  - unfold half_second_clock. lia.
  - intros i Hi. unfold half_second_clock. lia.
  - lia.
Defined.

(** ** After the stop flag *)

Lemma step_after_flag (e : WebcamVideoStream.event) (s : WebcamVideoStream.t) :
  WebcamVideoStream.stopped s = true ->
  let s' := WebcamVideoStream.step e s in
  WebcamVideoStream.stopped s' = true /\
  ((WebcamVideoStream.emitted s' = WebcamVideoStream.emitted s /\
    WebcamVideoStream.current_frame s' = WebcamVideoStream.current_frame s /\
    (is_in_flight e = false ->
     WebcamVideoStream.frame s' = WebcamVideoStream.frame s /\
     WebcamVideoStream.grabbed s' = WebcamVideoStream.grabbed s))
   \/
   (exists now, e = WebcamVideoStream.EvWriteInFlight now /\
      WebcamVideoStream.emitted s'
      = WebcamVideoStream.emitted s ++ [WebcamVideoStream.frame s] /\
      WebcamVideoStream.current_frame s'
      = WebcamVideoStream.current_frame s + 1)).
Proof.
  assert (Hbody : forall now s0,
             let s1 := WebcamVideoStream.after
                         (WebcamVideoStream.write_body now s0) s0 in
             WebcamVideoStream.stopped s1 = WebcamVideoStream.stopped s0 /\
             ((WebcamVideoStream.emitted s1 = WebcamVideoStream.emitted s0 /\
               WebcamVideoStream.current_frame s1
               = WebcamVideoStream.current_frame s0)
              \/
              (WebcamVideoStream.emitted s1
               = WebcamVideoStream.emitted s0 ++ [WebcamVideoStream.frame s0] /\
               WebcamVideoStream.current_frame s1
               = WebcamVideoStream.current_frame s0 + 1))).
  { intros now s0.
    destruct s0 as [st res f vn fc o cnt fi cf nf g fr sp].
    unfold WebcamVideoStream.write_body. cbn.
    destruct (FPS._start cnt); cbn; [|auto].
    destruct (elapsed_exceeds _ _ _); cbn; [|auto].
    destruct o as [w|]; cbn; auto. }
  intro Hs.
  destruct e as [now|r|now| |now| | |r|now]; cbn [WebcamVideoStream.step].
  - destruct s; cbn in *.
    split; [assumption | left; repeat split; reflexivity].
  - unfold WebcamVideoStream.update_iter. rewrite Hs. cbn.
    split; [assumption | left; repeat split; reflexivity].
  - unfold WebcamVideoStream.write_iter. rewrite Hs. cbn.
    split; [assumption | left; repeat split; reflexivity].
  - split; [assumption | left; repeat split; reflexivity].
  - destruct s; cbn in *.
    split; [reflexivity | left; repeat split; reflexivity].
  - destruct s; cbn in *.
    split; [assumption | left; repeat split; reflexivity].
  - unfold WebcamVideoStream.release_out.
    destruct s as [st res f vn fc o cnt fi cf nf g fr sp]; cbn in *.
    destruct o; cbn;
      (split; [assumption | left; repeat split; reflexivity]).
  - destruct s; cbn in *. split; [exact Hs|]. left.
    repeat split; auto; discriminate.
  - destruct (Hbody now s) as [Hst [[He Hc]|[He Hc]]]; cbv zeta in *.
    + split; [congruence|]. left. repeat split; auto; discriminate.
    + split; [congruence|]. right. exists now. auto.
Qed.

(** X2. Once [stop] has set the flag nothing clears it, not even a second
    [start], and an iteration of either loop that tests the flag does
    nothing. What can still act is an iteration that was in flight when
    the flag was set: each write iteration in flight hands at most one
    more frame to the file, after those already there. With no iteration
    in flight the slot, the file and the count stay as they are, whatever
    steps follow. *)
Theorem stopped_camera_finishes_in_flight (evs : list WebcamVideoStream.event)
    (s : WebcamVideoStream.t) :
  WebcamVideoStream.stopped s = true ->
  let s' := WebcamVideoStream.run evs s in
  WebcamVideoStream.stopped s' = true /\
  (exists more,
     WebcamVideoStream.emitted s' = WebcamVideoStream.emitted s ++ more /\
     WebcamVideoStream.current_frame s'
     = WebcamVideoStream.current_frame s + Z.of_nat (List.length more) /\
     (List.length more <= writes_in_flight evs)%nat) /\
  (forallb (fun e => negb (is_in_flight e)) evs = true ->
   WebcamVideoStream.emitted s' = WebcamVideoStream.emitted s /\
   WebcamVideoStream.current_frame s' = WebcamVideoStream.current_frame s /\
   WebcamVideoStream.frame s' = WebcamVideoStream.frame s /\
   WebcamVideoStream.grabbed s' = WebcamVideoStream.grabbed s).
Proof.
  revert s. induction evs as [|e evs IH]; intros s Hs; cbn.
  - split; [exact Hs|]. split; [|auto].
    exists []. rewrite app_nil_r. cbn. repeat split; lia.
  - destruct (step_after_flag e s Hs) as (H1 & Hstep).
    destruct (IH _ H1) as (I1 & (more & Ie & Ic & Il) & Ifrozen).
    cbv zeta in *. split; [exact I1|]. split.
    + destruct Hstep as [(He & Hc & _)|(now & -> & He & Hc)].
      * exists more. rewrite Ie, Ic, He, Hc. split; [reflexivity|].
        split; [reflexivity|].
        destruct e; cbn [writes_in_flight]; lia.
      * exists (WebcamVideoStream.frame s :: more).
        rewrite Ie, Ic, He, Hc, <- app_assoc. split; [reflexivity|].
        cbn [List.length writes_in_flight]. split; lia.
    + intro Hall. apply andb_true_iff in Hall. destruct Hall as [He Hall].
      apply negb_true_iff in He.
      destruct (Ifrozen Hall) as (F1 & F2 & F3 & F4).
      destruct Hstep as [(Se & Sc & Sf)|(now & -> & _)]; [|discriminate He].
      destruct (Sf He) as [Sfr Sg].
      rewrite F1, F2, F3, F4. auto.
Qed.

Lemma slow_recording_stopped : WebcamVideoStream.stopped slow_recording = true.
Proof. vm_compute. reflexivity. Qed.

Lemma stopped_camera_finishes_in_flight_witness :
  WebcamVideoStream.emitted
    (WebcamVideoStream.run
       [WebcamVideoStream.EvStart 3000000; WebcamVideoStream.EvUpdate failed_read;
        WebcamVideoStream.EvWrite 9000000] slow_recording)
  = WebcamVideoStream.emitted slow_recording.
Proof.
  exact (proj1 (proj2 (proj2 (stopped_camera_finishes_in_flight
                                [WebcamVideoStream.EvStart 3000000;
                                 WebcamVideoStream.EvUpdate failed_read;
                                 WebcamVideoStream.EvWrite 9000000]
                                slow_recording slow_recording_stopped))
                 eq_refl)).
Defined.

(** ** The frame slot *)

Lemma step_keeps_slot (e : WebcamVideoStream.event) (s : WebcamVideoStream.t) :
  is_capture e = false ->
  let s' := WebcamVideoStream.step e s in
  WebcamVideoStream.frame s' = WebcamVideoStream.frame s /\
  WebcamVideoStream.grabbed s' = WebcamVideoStream.grabbed s.
Proof.
  destruct s as [st res f vn fc o cnt fi cf nf g fr sp].
  destruct e as [now|r|now| |now| | |r|now]; cbn; intro He;
    try discriminate; auto.
  - unfold WebcamVideoStream.write_iter, WebcamVideoStream.write_body; cbn.
    destruct sp; cbn; auto.
    destruct (FPS._start cnt); cbn; auto.
    destruct (elapsed_exceeds _ _ _); cbn; auto.
    destruct o; cbn; auto.
  - unfold WebcamVideoStream.release_out; cbn. destruct o; cbn; auto.
  - unfold WebcamVideoStream.write_body; cbn.
    destruct (FPS._start cnt); cbn; auto.
    destruct (elapsed_exceeds _ _ _); cbn; auto.
    destruct o; cbn; auto.
Qed.

Lemma capture_stores_read (r : read_result)
    (s : WebcamVideoStream.t) :
  WebcamVideoStream.stopped s = false ->
  cap_opened (WebcamVideoStream.stream s) = true ->
  cap_released (WebcamVideoStream.stream s) = false ->
  WebcamVideoStream.frame
    (WebcamVideoStream.step (WebcamVideoStream.EvUpdate r) s) = snd r /\
  WebcamVideoStream.grabbed
    (WebcamVideoStream.step (WebcamVideoStream.EvUpdate r) s) = fst r.
Proof.
  intros Hrun Hopen Hrel. cbn.
  unfold WebcamVideoStream.update_iter, WebcamVideoStream.update_body.
  rewrite Hrun. cbn. rewrite (cap_read_open _ r Hopen Hrel). auto.
Qed.

(** X3. There is no queue of frames: while the camera runs on an open device,
    [read] gives the buffer of the most recent iteration of the capture
    loop, success or failure, and the write loop, [read] itself and the
    controller's steps leave it in place however often they run. *)
Theorem read_returns_latest_capture (r : read_result)
    (evs : list WebcamVideoStream.event) (s : WebcamVideoStream.t) :
  WebcamVideoStream.stopped s = false ->
  cap_opened (WebcamVideoStream.stream s) = true ->
  cap_released (WebcamVideoStream.stream s) = false ->
  forallb (fun e => negb (is_capture e)) evs = true ->
  let s' := WebcamVideoStream.run evs
              (WebcamVideoStream.step (WebcamVideoStream.EvUpdate r) s) in
  WebcamVideoStream.read s' = snd r /\ WebcamVideoStream.grabbed s' = fst r.
Proof.
  intros Hrun Hopen Hrel Hevs.
  assert (Hkeep : forall evs s0,
             forallb (fun e => negb (is_capture e)) evs = true ->
             WebcamVideoStream.frame (WebcamVideoStream.run evs s0)
             = WebcamVideoStream.frame s0 /\
             WebcamVideoStream.grabbed (WebcamVideoStream.run evs s0)
             = WebcamVideoStream.grabbed s0).
  { clear. induction evs as [|e evs IH]; intros s0 H; cbn; [auto|].
    cbn in H. apply andb_true_iff in H. destruct H as [He Hrest].
    apply negb_true_iff in He.
    destruct (step_keeps_slot e s0 He) as [Hf Hg].
    destruct (IH (WebcamVideoStream.step e s0) Hrest) as [If Ig].
    cbv zeta in *. rewrite If, Ig. auto. }
  cbv zeta. unfold WebcamVideoStream.read.
  destruct (Hkeep evs (WebcamVideoStream.step (WebcamVideoStream.EvUpdate r) s)
              Hevs) as [-> ->].
  destruct (capture_stores_read r s Hrun Hopen Hrel) as [-> ->].
  auto.
Qed.

Lemma read_returns_latest_capture_witness :
  WebcamVideoStream.read
    (WebcamVideoStream.run
       [WebcamVideoStream.EvWrite 1000000; WebcamVideoStream.EvRead]
       (WebcamVideoStream.step (WebcamVideoStream.EvUpdate (true, Some 9%nat))
          sample_camera))
  = Some 9%nat.
Proof.
  exact (proj1 (read_returns_latest_capture (true, Some 9%nat)
                  [WebcamVideoStream.EvWrite 1000000; WebcamVideoStream.EvRead]
                  sample_camera eq_refl eq_refl eq_refl eq_refl)).
Defined.

(** ** Catching up *)

Lemma write_iter_keeps_slot (now : datetime) (s s' : WebcamVideoStream.t) :
  WebcamVideoStream.write_iter now s = Continue s' ->
  WebcamVideoStream.frame s' = WebcamVideoStream.frame s.
Proof.
  destruct s as [st res f vn fc o cnt fi cf nf g fr sp].
  unfold WebcamVideoStream.write_iter, WebcamVideoStream.write_body; cbn.
  destruct sp; [discriminate|].
  destruct (FPS._start cnt); [|discriminate].
  destruct (elapsed_exceeds _ _ _); [|intros [= <-]; reflexivity].
  destruct o; [|discriminate]. intros [= <-]. reflexivity.
Qed.

Lemma write_loop_one_per_iteration (nows : list datetime) :
  forall s,
    WebcamVideoStream.current_frame (WebcamVideoStream.write_loop nows s)
    <= WebcamVideoStream.current_frame s + Z.of_nat (List.length nows).
Proof.
  induction nows as [|now rest IH]; intro s.
  - cbn. lia.
  - cbn [WebcamVideoStream.write_loop List.length].
    pose proof (step_emits (WebcamVideoStream.EvWrite now) s) as Hstep.
    cbn in Hstep.
    destruct (WebcamVideoStream.write_iter now s) as [|s1|] eqn:Hit;
      [lia | | lia].
    cbn in Hstep. specialize (IH s1).
    destruct Hstep as [(_ & Hc & _)|(_ & Hc & _)]; lia.
Qed.

(** X4. The write loop hands over at most one frame per iteration. A loop that
    has fallen behind (at each of its next [n] iterations the frames due
    exceed the count by the iterations still to come) hands one over at
    every one of them, and without a new capture in between these are [n]
    copies of the frame in the slot. *)
Theorem write_loop_catches_up (t0 f : Z) (nows : list datetime)
    (s : WebcamVideoStream.t) :
  0 < f -> recording t0 f s ->
  let n := Z.of_nat (List.length nows) in
  let s' := WebcamVideoStream.write_loop nows s in
  WebcamVideoStream.current_frame s' <= WebcamVideoStream.current_frame s + n /\
  (Forall (fun now =>
             (WebcamVideoStream.current_frame s + n - 1) * 1000000
             < (now - t0) * f) nows ->
   WebcamVideoStream.current_frame s' = WebcamVideoStream.current_frame s + n /\
   WebcamVideoStream.emitted s'
   = WebcamVideoStream.emitted s
     ++ repeat (WebcamVideoStream.frame s) (List.length nows)).
Proof.
  intros Hf Hrec n s'. split; [apply write_loop_one_per_iteration|].
  subst n s'. change 1000000 with (Zpos usec_per_sec).
  revert s Hrec. induction nows as [|now rest IH]; intros s Hrec Hall.
  - cbn. rewrite app_nil_r. split; [lia | reflexivity].
  - inversion Hall as [|? ? Hnow Hrest]; subst.
    cbn [WebcamVideoStream.write_loop List.length repeat].
    cbn [List.length] in Hnow, Hrest.
    destruct (write_iter_recording t0 f now s Hf Hrec)
      as (s1 & Hit & Hrec1 & [(_ & Hlt & Hc1 & He1)|(_ & Hge & _)]).
    + rewrite Hit.
      pose proof (write_iter_keeps_slot now s s1 Hit) as Hslot.
      destruct (IH s1 Hrec1) as [Hc He].
      { eapply Forall_impl; [|exact Hrest].
        intros t Ht. cbn beta in *. rewrite Hc1. lia. }
      rewrite Hc, He, Hc1, He1, Hslot, <- app_assoc.
      split; [lia | reflexivity].
    + exfalso. lia.
Qed.

Lemma write_loop_catches_up_witness :
  WebcamVideoStream.emitted
    (WebcamVideoStream.write_loop [1000000; 1000001; 1000002] sample_camera)
  = [Some 7%nat; Some 7%nat; Some 7%nat].
Proof.
  refine (proj2 (proj2 (write_loop_catches_up 0 5
                          [1000000; 1000001; 1000002] sample_camera
                          eq_refl _) _)).
  - unfold recording. repeat split. eexists. reflexivity.
  - repeat constructor.
Defined.

(** ** The achieved rate *)

Lemma fps_value (c : FPS.t) (s e : datetime) :
  FPS._start c = Some s -> FPS._end c = Some e -> e <> s ->
  FPS.fps c = Some (inject_Z (FPS._numFrames c) / total_seconds (e - s)%Z)%Q.
Proof.
  intros Hs He Hne. unfold FPS.fps.
  rewrite (elapsed_instants c s e Hs He).
  destruct (Qeq_bool (total_seconds (e - s)) 0) eqn:E; [|reflexivity].
  apply Qeq_bool_iff in E. apply (proj1 (total_seconds_zero _)) in E.
  unfold datetime in *. lia.
Qed.

Lemma write_loop_counted (t0 f : Z) (nows : list datetime) :
  0 < f ->
  forall s,
    recording t0 f s ->
    FPS._numFrames (WebcamVideoStream.FPS_counter s)
    = WebcamVideoStream.current_frame s ->
    let s' := WebcamVideoStream.write_loop nows s in
    recording t0 f s' /\
    FPS._numFrames (WebcamVideoStream.FPS_counter s')
    = WebcamVideoStream.current_frame s'.
Proof.
  intro Hf. induction nows as [|now rest IH]; intros s Hrec Hn; cbn; [auto|].
  destruct (write_iter_recording t0 f now s Hf Hrec)
    as (s1 & Hit & Hrec1 & _).
  rewrite Hit. apply IH; [exact Hrec1|].
  pose proof (step_emits (WebcamVideoStream.EvWrite now) s) as Hstep.
  cbn in Hstep. rewrite Hit in Hstep. cbn in Hstep.
  destruct Hstep as [(_ & Hc & Hm)|(_ & Hc & Hm)]; lia.
Qed.

(** The rate as a quotient of integers, against the target. *)
Lemma rate_bounds (c f e : Z) :
  0 < e ->
  let T := total_seconds e in
  let avg := (inject_Z c / T)%Q in
  (c * Zpos usec_per_sec <= e * f + Zpos usec_per_sec ->
   (avg <= inject_Z f + 1 / T)%Q) /\
  (c * Zpos usec_per_sec <= e * f + 2 * Zpos usec_per_sec ->
   (avg <= inject_Z f + 2 / T)%Q) /\
  (e * f - Zpos usec_per_sec <= c * Zpos usec_per_sec ->
   (inject_Z f - 1 / T <= avg)%Q).
Proof.
  intros He T avg. subst T avg.
  destruct e as [|p|p]; try lia.
  unfold total_seconds, usec_per_sec.
  repeat split; intro H;
    cbv [Qle Qdiv Qmult Qinv Qplus Qminus Qopp inject_Z Qnum Qden];
    rewrite ?Pos2Z.inj_mul, ?Z.mul_1_l, ?Z.mul_1_r;
    apply Z.mul_le_mono_nonneg_r; lia.
Qed.

(** The counter and the count of a recording stopped at [stop]. *)
Lemma stopped_recording_rate (a : Main.args) (src : Z) (path : string)
    (cam : bool * read_result) (vs : WebcamVideoStream.t)
    (t0 stop : datetime) (nows : list datetime) :
  Main.camera_setup a src path cam = Some vs ->
  0 < Main.fps a ->
  t0 < stop ->
  let f := Main.fps a in
  let s := WebcamVideoStream.stop_flag stop
             (WebcamVideoStream.write_loop nows
                (WebcamVideoStream.start t0 vs)) in
  let c := WebcamVideoStream.current_frame s in
  FPS.fps (WebcamVideoStream.FPS_counter s)
  = Some (inject_Z c / total_seconds (stop - t0)%Z)%Q /\
  WebcamVideoStream.fps s = f /\
  (Forall (fun now => now <= stop) nows ->
   c * Zpos usec_per_sec <= (stop - t0) * f + Zpos usec_per_sec) /\
  (dense f t0 nows stop ->
   (stop - t0) * f - Zpos usec_per_sec <= c * Zpos usec_per_sec).
Proof.
  intros Hsetup Hf Hlen f s c.
  destruct (started_camera_recording a src path cam vs t0 Hsetup)
    as [Hrec Hzero].
  destruct (camera_setup_fresh _ _ _ _ _ Hsetup)
    as (_ & _ & Hn0 & _ & _ & Hrate & _).
  set (s1 := WebcamVideoStream.write_loop nows (WebcamVideoStream.start t0 vs))
    in *.
  destruct (write_loop_counted t0 f nows Hf _ Hrec) as [Hrec1 Hnum].
  { cbn. rewrite Hn0. symmetry. exact Hzero. }
  fold s1 in Hrec1, Hnum.
  destruct Hrec1 as (_ & Hstart1 & _).
  assert (Hcur : c = WebcamVideoStream.current_frame s1) by reflexivity.
  split.
  { rewrite Hcur, <- Hnum.
    apply (fps_value (WebcamVideoStream.FPS_counter s) t0 stop).
    - exact Hstart1.
    - reflexivity.
    - unfold datetime in *. lia. }
  split.
  { assert (Hkeep : forall l s0,
               WebcamVideoStream.fps (WebcamVideoStream.write_loop l s0)
               = WebcamVideoStream.fps s0).
    { clear. induction l as [|now rest IH]; intro s0; cbn; [reflexivity|].
      destruct s0 as [st res fp vn fc o cnt fi cf nf g fr sp].
      unfold WebcamVideoStream.write_iter at 1.
      unfold WebcamVideoStream.write_body; cbn.
      destruct sp; [reflexivity|].
      destruct (FPS._start cnt); [|reflexivity].
      destruct (elapsed_exceeds _ _ _); [|apply IH].
      destruct o; [|reflexivity]. rewrite IH. reflexivity. }
    change (WebcamVideoStream.fps s1 = f). subst s1.
    rewrite Hkeep. exact Hrate. }
  rewrite Hcur. split.
  - intro Hall.
    pose proof (write_loop_upper t0 f stop nows Hf Hall _ Hrec
                  (or_introl Hzero)) as Hc.
    cbv zeta in Hc. fold s1 in Hc. unfold datetime in *.
    destruct Hc as [Hc|Hc]; [rewrite Hc; nia | lia].
  - intro Hd.
    pose proof (write_loop_lower t0 f stop nows Hf t0 _ Hrec Hd) as Hl.
    rewrite Hzero in Hl. fold s1 in Hl. unfold datetime in *. lia.
Qed.

(** X5. A recording of positive length at a rate [f > 0]: when it is stopped
    and the iteration in flight (if any) has completed, the achieved rate
    reported by the FPS counter is the count of emitted frames over the
    seconds recorded. It exceeds [f] by at most two frames over the whole
    recording however the write loop was scheduled (one frame when no
    iteration was in flight), and it falls short of [f] by at most one
    frame over the whole recording when the write loop came round at
    least once per frame interval. *)
Theorem achieved_rate_tracks_target (a : Main.args) (src : Z) (path : string)
    (cam : bool * read_result) (vs : WebcamVideoStream.t)
    (t0 stop : datetime) (nows : list datetime) (late : option datetime) :
  Main.camera_setup a src path cam = Some vs ->
  0 < Main.fps a ->
  t0 < stop ->
  let f := Main.fps a in
  let s := WebcamVideoStream.run (session nows stop late)
             (WebcamVideoStream.start t0 vs) in
  let T := total_seconds (stop - t0) in
  exists avg,
    FPS.fps (WebcamVideoStream.FPS_counter s) = Some avg /\
    avg = (inject_Z (WebcamVideoStream.current_frame s) / T)%Q /\
    (Forall (fun now => now <= stop) nows ->
     (avg <= inject_Z f + 2 / T)%Q /\
     (late = None -> (avg <= inject_Z f + 1 / T)%Q)) /\
    (dense f t0 nows stop -> (inject_Z f - 1 / T <= avg)%Q).
Proof.
  intros Hsetup Hf Hlen f s T.
  destruct (started_camera_recording a src path cam vs t0 Hsetup)
    as [Hrec Hzero].
  destruct (camera_setup_fresh _ _ _ _ _ Hsetup)
    as (_ & He0 & Hn0 & _).
  destruct (stopped_recording_rate a src path cam vs t0 stop nows
              Hsetup Hf Hlen) as (_ & _ & Hup & Hlow).
  cbv zeta in Hup, Hlow.
  change (WebcamVideoStream.current_frame
            (WebcamVideoStream.stop_flag stop
               (WebcamVideoStream.write_loop nows
                  (WebcamVideoStream.start t0 vs))))
    with (WebcamVideoStream.current_frame
            (WebcamVideoStream.write_loop nows
               (WebcamVideoStream.start t0 vs))) in Hup, Hlow.
  destruct (session_run t0 f stop nows late _ Hf Hrec)
    as (_ & Hcount & Hnone & Hend & Hstart & _).
  cbv zeta in Hcount, Hnone, Hend, Hstart. fold s in Hcount, Hnone, Hend, Hstart.
  destruct (write_loop_counted t0 f nows Hf _ Hrec) as [(_ & Hst1 & _) _].
  { cbn. rewrite Hn0. symmetry. exact Hzero. }
  rewrite Hst1 in Hstart.
  destruct (run_counted (session nows stop late)
              (WebcamVideoStream.start t0 vs)) as [_ Hnum].
  { rewrite Hzero.
    change (WebcamVideoStream.emitted (WebcamVideoStream.start t0 vs))
      with (WebcamVideoStream.emitted vs).
    rewrite He0. reflexivity. }
  { cbn. rewrite Hn0. symmetry. exact Hzero. }
  cbv zeta in Hnum. fold s in Hnum.
  exists (inject_Z (WebcamVideoStream.current_frame s) / T)%Q. split.
  { rewrite <- Hnum.
    apply (fps_value (WebcamVideoStream.FPS_counter s) t0 stop Hstart Hend).
    unfold datetime in *. lia. }
  split; [reflexivity|].
  assert (He : 0 < stop - t0) by (unfold datetime in *; lia).
  destruct (rate_bounds (WebcamVideoStream.current_frame s) f (stop - t0) He)
    as (Q1 & Q2 & Qlow).
  split.
  - intro Hall. specialize (Hup Hall). split.
    + apply Q2. unfold datetime, usec_per_sec in *. lia.
    + intro Hl. apply Q1. rewrite (Hnone Hl). exact Hup.
  - intro Hd. apply Qlow. specialize (Hlow Hd).
    unfold datetime, usec_per_sec in *. lia.
Qed.

Lemma achieved_rate_tracks_target_witness :
  exists vs avg,
    Main.camera_setup sample_args 0 "output1.avi" (true, good_read) = Some vs /\
    FPS.fps (WebcamVideoStream.FPS_counter
               (WebcamVideoStream.run (session paced_nows 2000000 None)
                  (WebcamVideoStream.start 0 vs))) = Some avg /\
    (inject_Z 5 - 1 / total_seconds 2000000%Z <= avg)%Q /\
    (avg <= inject_Z 5 + 1 / total_seconds 2000000%Z)%Q.
Proof.
  eexists.
  destruct (achieved_rate_tracks_target sample_args 0 "output1.avi"
              (true, good_read) _ 0 2000000 paced_nows None
              eq_refl eq_refl eq_refl)
    as (avg & Hfps & _ & Hup & Hlow).
  exists avg. split; [reflexivity|]. split; [exact Hfps|]. split.
  - exact (Hlow paced_nows_dense).
  - apply Hup; [|reflexivity].
    unfold paced_nows. repeat constructor; discriminate.
Defined.

Lemma py_round_ge (q : Q) (f : Z) :
  (inject_Z f - (1 # 2) < q)%Q -> f <= py_round q.
Proof.
  intro Hq.
  pose proof (py_round_nearest q) as Hn.
  apply Qabs_Qle_condition in Hn. destruct Hn as [_ Hn].
  assert (H : (inject_Z f - 1 < inject_Z (py_round q))%Q) by lra.
  revert H. generalize (py_round q). intros r H.
  cbv [Qlt Qminus Qplus Qopp inject_Z Qnum Qden] in H. lia.
Qed.

Lemma rate_above_half (c f e : Z) :
  2 * Zpos usec_per_sec < e ->
  e * f - Zpos usec_per_sec <= c * Zpos usec_per_sec ->
  (inject_Z f - (1 # 2) < inject_Z c / total_seconds e)%Q.
Proof.
  intros He H. destruct e as [|p|p]; try lia.
  unfold total_seconds, usec_per_sec in *.
  cbv [Qlt Qdiv Qmult Qinv Qplus Qminus Qopp inject_Z Qnum Qden].
  rewrite ?Pos2Z.inj_mul, ?Z.mul_1_l, ?Z.mul_1_r. lia.
Qed.

(** X6. A recording longer than two seconds at a rate [f > 0], whose write
    loop came round at least once per frame interval, is reported without
    a warning: its achieved rate rounds to [f] or more. *)
Theorem paced_recording_has_no_warning (a : Main.args) (src : Z)
    (path : string) (cam : bool * read_result) (vs : WebcamVideoStream.t)
    (t0 stop : datetime) (nows : list datetime) (k : nat) :
  Main.camera_setup a src path cam = Some vs ->
  0 < Main.fps a ->
  2 * 1000000 < stop - t0 ->
  dense (Main.fps a) t0 nows stop ->
  let s := WebcamVideoStream.stop_flag stop
             (WebcamVideoStream.write_loop nows
                (WebcamVideoStream.start t0 vs)) in
  exists avg,
    Main.report_camera k s
    = Some [Main.Average k avg; Main.Target k (Main.fps a)] /\
    Main.fps a <= py_round avg.
Proof.
  intros Hsetup Hf Hlen Hd s.
  assert (Hpos : t0 < stop) by (unfold datetime in *; lia).
  destruct (stopped_recording_rate a src path cam vs t0 stop nows
              Hsetup Hf Hpos) as (Hfps & Hrate & _ & Hlow).
  specialize (Hlow Hd).
  fold s in Hfps, Hrate, Hlow.
  eexists. unfold Main.report_camera. rewrite Hfps, Hrate.
  assert (Hround : Main.fps a
                   <= py_round (inject_Z (WebcamVideoStream.current_frame s)
                                / total_seconds (stop - t0)%Z)%Q).
  { apply py_round_ge, rate_above_half; [exact Hlen | exact Hlow]. }
  split; [|exact Hround].
  destruct (Z.ltb_spec
              (py_round (inject_Z (WebcamVideoStream.current_frame s)
                         / total_seconds (stop - t0)%Z)%Q)
              (Main.fps a)) as [Hlt|_]; [lia | reflexivity].
Qed.

Lemma paced_nows_dense_longer : dense 5 0 paced_nows 2000001.
Proof. cbn. unfold usec_per_sec. repeat split; lia. Qed.

Lemma paced_recording_has_no_warning_witness :
  exists vs avg,
    Main.camera_setup sample_args 0 "output1.avi" (true, good_read) = Some vs /\
    Main.report_camera 1
      (WebcamVideoStream.stop_flag 2000001
         (WebcamVideoStream.write_loop paced_nows
            (WebcamVideoStream.start 0 vs)))
    = Some [Main.Average 1 avg; Main.Target 1 5].
Proof.
  eexists.
  destruct (paced_recording_has_no_warning sample_args 0 "output1.avi"
              (true, good_read) _ 0 2000001 paced_nows 1
              eq_refl eq_refl eq_refl paced_nows_dense_longer)
    as (avg & Hrep & _).
  exists avg. split; [reflexivity | exact Hrep].
Defined.

(** ** The pace does not depend on the capture loop *)

(** X7. Output timing does not depend on capture: over any interleaving of
    iterations of the two loops and of [read]s on a recording camera, the
    count of emitted frames is the one the write loop reaches on its own
    at the same instants, whatever the camera delivered and whenever. *)
Theorem write_pace_ignores_capture (t0 f : Z)
    (evs : list WebcamVideoStream.event) (s : WebcamVideoStream.t) :
  0 < f -> recording t0 f s ->
  forallb is_loop_step evs = true ->
  WebcamVideoStream.current_frame (WebcamVideoStream.run evs s)
  = WebcamVideoStream.current_frame
      (WebcamVideoStream.write_loop (write_instants evs) s) /\
  List.length (WebcamVideoStream.emitted (WebcamVideoStream.run evs s))
  = List.length
      (WebcamVideoStream.emitted
         (WebcamVideoStream.write_loop (write_instants evs) s)).
Proof.
  intros Hf Hrec Hevs.
  assert (Hsim : forall evs sa sb,
             forallb is_loop_step evs = true ->
             recording t0 f sa -> recording t0 f sb ->
             WebcamVideoStream.current_frame sa
             = WebcamVideoStream.current_frame sb ->
             List.length (WebcamVideoStream.emitted sa)
             = List.length (WebcamVideoStream.emitted sb) ->
             WebcamVideoStream.current_frame (WebcamVideoStream.run evs sa)
             = WebcamVideoStream.current_frame
                 (WebcamVideoStream.write_loop (write_instants evs) sb) /\
             List.length
               (WebcamVideoStream.emitted (WebcamVideoStream.run evs sa))
             = List.length
                 (WebcamVideoStream.emitted
                    (WebcamVideoStream.write_loop (write_instants evs) sb))).
  { clear s Hrec evs Hevs.
    induction evs as [|e evs IH]; intros sa sb Hall Ha Hb Hc He; [auto|].
    cbn [forallb] in Hall. apply andb_true_iff in Hall.
    destruct Hall as [Hstep Hall].
    destruct e as [now|r|now| |now| | |r|now]; try discriminate Hstep.
    - cbn [WebcamVideoStream.run write_instants].
      destruct (update_keeps_recording t0 f r sa Ha) as [Ha' Hc'].
      apply IH; auto; [congruence|].
      destruct (step_emits (WebcamVideoStream.EvUpdate r) sa)
        as [(E & _)|(_ & C & _)]; [rewrite E; exact He | cbv zeta in *; lia].
    - cbn [WebcamVideoStream.run write_instants WebcamVideoStream.write_loop
           WebcamVideoStream.step].
      destruct (write_iter_recording t0 f now sa Hf Ha)
        as (sa1 & Hita & Ha1 & Hca).
      destruct (write_iter_recording t0 f now sb Hf Hb)
        as (sb1 & Hitb & Hb1 & Hcb).
      rewrite Hita, Hitb. cbn [WebcamVideoStream.after].
      rewrite Hc in Hca.
      apply IH; auto.
      + destruct Hca as [(Ta & _ & Ca & _)|(Ta & _ & ->)];
          destruct Hcb as [(Tb & _ & Cb & _)|(Tb & _ & ->)];
          try congruence; lia.
      + destruct Hca as [(Ta & _ & _ & Ea)|(Ta & _ & ->)];
          destruct Hcb as [(Tb & _ & _ & Eb)|(Tb & _ & ->)];
          try congruence;
          rewrite ?Ea, ?Eb, ?List.length_app; cbn; lia.
    - cbn [WebcamVideoStream.run write_instants WebcamVideoStream.step].
      apply IH; auto. }
  apply Hsim; auto.
Qed.

Lemma write_pace_ignores_capture_witness :
  WebcamVideoStream.current_frame
    (WebcamVideoStream.run
       [WebcamVideoStream.EvUpdate failed_read; WebcamVideoStream.EvWrite 1000000;
        WebcamVideoStream.EvRead; WebcamVideoStream.EvUpdate good_read;
        WebcamVideoStream.EvWrite 2000000] sample_camera)
  = WebcamVideoStream.current_frame
      (WebcamVideoStream.write_loop [1000000; 2000000] sample_camera).
Proof.
  refine (proj1 (write_pace_ignores_capture 0 5
                   [WebcamVideoStream.EvUpdate failed_read;
                    WebcamVideoStream.EvWrite 1000000;
                    WebcamVideoStream.EvRead;
                    WebcamVideoStream.EvUpdate good_read;
                    WebcamVideoStream.EvWrite 2000000]
                   sample_camera eq_refl _ eq_refl)).
  unfold recording. repeat split. eexists. reflexivity.
Defined.

(** ** What the teardown keeps *)






(** ** Setup and the ON pulse before the start *)

(** X9. Two values on the command line end the controller during the setup,
    whatever the cameras do: a codec that does not have four characters
    (the call of [VideoWriter_fourcc], before any camera is opened) and a
    rate of 0 (the division [1 / fps] in the setup of the first camera).
    Then no camera is started and the ON line is never read. With any
    other rate and a codec of four characters all four cameras are set
    up. *)
Theorem setup_fails_on_zero_rate_or_bad_codec (a : Main.args)
    (env : Main.cameras) :
  (Main.initialize_cameras a env = None
   <-> Main.fps a = 0 \/ String.length (Main.codec a) <> 4%nat) /\
  (String.length (Main.codec a) <> 4%nat ->
   Main.VideoWriter_fourcc (Main.codec a) = None) /\
  (Main.fps a = 0 ->
   Main.camera_setup a (Main.cam1 a) (Main.out1 a) (env 1%nat) = None) /\
  (Main.fps a = 0 \/ String.length (Main.codec a) <> 4%nat ->
   forall daq cost fuel samples c,
     Main.arm_and_start a env daq cost fuel samples c = (None, c)) /\
  (Main.fps a <> 0 -> String.length (Main.codec a) = 4%nat ->
   exists vs1 vs2 vs3 vs4,
     Main.initialize_cameras a env = Some [vs1; vs2; vs3; vs4]).
Proof.
  assert (Hzero : Main.fps a = 0 -> forall src path cam,
             Main.camera_setup a src path cam = None).
  { intros H0 src path cam. unfold Main.camera_setup. cbn.
    rewrite H0. reflexivity. }
  assert (Hsome : Main.fps a <> 0 -> forall src path cam, exists vs,
             Main.camera_setup a src path cam = Some vs).
  { intros Hne src path cam. unfold Main.camera_setup. cbn.
    destruct (Z.eqb_spec (Main.fps a) 0); [contradiction|].
    eexists; reflexivity. }
  assert (Hall : Main.fps a <> 0 -> String.length (Main.codec a) = 4%nat ->
             exists vs1 vs2 vs3 vs4,
               Main.initialize_cameras a env = Some [vs1; vs2; vs3; vs4]).
  { intros Hne Hc. unfold Main.initialize_cameras.
    rewrite (fourcc_of_four _ Hc).
    destruct (Hsome Hne (Main.cam1 a) (Main.out1 a) (env 1%nat)) as [v1 ->].
    destruct (Hsome Hne (Main.cam2 a) (Main.out2 a) (env 2%nat)) as [v2 ->].
    destruct (Hsome Hne (Main.cam3 a) (Main.out3 a) (env 3%nat)) as [v3 ->].
    destruct (Hsome Hne (Main.cam4 a) (Main.out4 a) (env 4%nat)) as [v4 ->].
    exists v1, v2, v3, v4. reflexivity. }
  assert (Hfail : Main.fps a = 0 \/ String.length (Main.codec a) <> 4%nat ->
                  Main.initialize_cameras a env = None).
  { intro H. unfold Main.initialize_cameras.
    destruct (Main.VideoWriter_fourcc (Main.codec a)) eqn:E; [|reflexivity].
    destruct H as [H0|Hc].
    - now rewrite (Hzero H0).
    - apply fourcc_raises in Hc. congruence. }
  split; [|split; [|split; [|split]]].
  - split; [|exact Hfail].
    intro Hnone.
    destruct (Z.eq_dec (Main.fps a) 0) as [|Hne]; [left; assumption|].
    destruct (Nat.eq_dec (String.length (Main.codec a)) 4) as [Hc|Hc];
      [|right; exact Hc].
    destruct (Hall Hne Hc) as (v1 & v2 & v3 & v4 & Hs). congruence.
  - apply fourcc_raises.
  - intro H0. apply (Hzero H0).
  - intros H daq cost fuel samples c. unfold Main.arm_and_start.
    rewrite (Hfail H). reflexivity.
  - exact Hall.
Qed.

Lemma setup_fails_on_zero_rate_or_bad_codec_witness :
  Main.arm_and_start short_codec_args second_camera_missing true
    (fun _ => 1000) 0 sample_line 0
  = (None, 0) /\
  Main.arm_and_start
    (Main.mkArgs 2 0 "IYUV" "output1.avi" "output2.avi" "output3.avi"
                 "output4.avi" 0 1 2 3)
    second_camera_missing true (fun _ => 1000) 0 sample_line 0
  = (None, 0).
Proof.
  split.
  - apply (proj1 (proj2 (proj2 (proj2 (setup_fails_on_zero_rate_or_bad_codec
                                         short_codec_args
                                         second_camera_missing))))).
    right. discriminate.
  - apply (proj1 (proj2 (proj2 (proj2 (setup_fails_on_zero_rate_or_bad_codec
                                         (Main.mkArgs 2 0 "IYUV" "output1.avi"
                                            "output2.avi" "output3.avi"
                                            "output4.avi" 0 1 2 3)
                                         second_camera_missing))))).
    left. reflexivity.
Defined.

(** X10. In TTL mode ([seconds = -1]) no camera is started while the ON line
    stays low, however long the controller polls; with any other value of
    [seconds] the line is not consulted at all and the start does not
    depend on it, nor on the NI device being there. *)
Theorem start_is_gated_by_on_pulse (a : Main.args) (env : Main.cameras)
    (daq : bool) (cost : nat -> Z) (c : datetime) :
  (Main.seconds a = -1 ->
   forall samples, (forall n, samples n = false) ->
   forall fuel, Main.arm_and_start a env daq cost fuel samples c = (None, c)) /\
  (Main.seconds a <> -1 ->
   forall fuel samples fuel' samples' daq',
     Main.arm_and_start a env daq cost fuel samples c
     = Main.arm_and_start a env daq' cost fuel' samples' c).
Proof.
  split.
  - intros Httl samples Hlow fuel. unfold Main.arm_and_start.
    destruct (Main.initialize_cameras a env); [|reflexivity].
    rewrite Httl. cbn [Z.eqb Pos.eqb].
    unfold Main.read_on_pulse. rewrite (wait_blocks samples fuel Hlow).
    destruct daq; reflexivity.
  - intros Hne fuel samples fuel' samples' daq'. unfold Main.arm_and_start.
    destruct (Main.initialize_cameras a env); [|reflexivity].
    destruct (Z.eqb_spec (Main.seconds a) (-1)); [contradiction|reflexivity].
Qed.

Lemma start_is_gated_by_on_pulse_witness :
  Main.arm_and_start
    (Main.mkArgs (-1) 5 "IYUV" "output1.avi" "output2.avi" "output3.avi"
                 "output4.avi" 0 1 2 3)
    second_camera_missing true (fun _ => 1000) 1000 (fun _ => false) 0
  = (None, 0).
Proof.
  exact (proj1 (start_is_gated_by_on_pulse
                  (Main.mkArgs (-1) 5 "IYUV" "output1.avi" "output2.avi"
                     "output3.avi" "output4.avi" 0 1 2 3)
                  second_camera_missing true (fun _ => 1000) 0)
           eq_refl (fun _ => false) (fun _ => eq_refl) 1000%nat).
Defined.

(** ** A camera the controller has not configured *)

Lemma step_out_placeholder (e : WebcamVideoStream.event)
    (s : WebcamVideoStream.t) :
  WebcamVideoStream.out s = None ->
  WebcamVideoStream.out (WebcamVideoStream.step e s) = None /\
  WebcamVideoStream.current_frame (WebcamVideoStream.step e s)
  = WebcamVideoStream.current_frame s.
Proof.
  destruct s as [st res f vn fc o cnt fi cf nf g fr sp]. cbn. intros ->.
  destruct e as [now|r|now| |now| | |r|now]; cbn; auto.
  - unfold WebcamVideoStream.update_iter, WebcamVideoStream.update_body; cbn.
    destruct sp; cbn; auto.
  - unfold WebcamVideoStream.write_iter, WebcamVideoStream.write_body; cbn.
    destruct sp; cbn; auto.
    destruct (FPS._start cnt); cbn; auto.
    destruct (elapsed_exceeds _ _ _); cbn; auto.
  - unfold WebcamVideoStream.write_body; cbn.
    destruct (FPS._start cnt); cbn; auto.
    destruct (elapsed_exceeds _ _ _); cbn; auto.
Qed.

(** X11. A camera object as the constructor leaves it, with the placeholders
    [-1] for its output, cannot record. Its write loop ends with an
    exception at its first iteration when the camera was not started, and
    at its first iteration after the start instant when it was; no step
    ever hands a frame to a file or moves the count; and [stop] raises too,
    after its sleep, when it comes to release the output. *)
Theorem unconfigured_camera_cannot_record (src : Z) (opened : bool)
    (r : read_result) (t0 now : datetime) (over : Z) (c : datetime)
    (evs : list WebcamVideoStream.event) :
  let s := WebcamVideoStream.init src opened r in
  WebcamVideoStream.write_iter now s = Raise /\
  (t0 < now ->
   WebcamVideoStream.write_iter now (WebcamVideoStream.start t0 s) = Raise) /\
  (now <= t0 ->
   WebcamVideoStream.write_iter now (WebcamVideoStream.start t0 s)
   = Continue (WebcamVideoStream.start t0 s)) /\
  WebcamVideoStream.stop over s c = (None, c + grace + over) /\
  WebcamVideoStream.emitted (WebcamVideoStream.run evs s) = [] /\
  WebcamVideoStream.current_frame (WebcamVideoStream.run evs s) = 0.
Proof.
  intro s.
  assert (Htest : elapsed_exceeds (now - t0) (-1 # 1) 0 = (t0 <? now)).
  { destruct (elapsed_exceeds_cases (now - t0) (-1 # 1) 0) as (Elt & Egt & Eeq).
    destruct (Z.ltb_spec t0 now) as [Hlt|Hge].
    - apply Elt. unfold Qlt, total_seconds. cbn. unfold datetime in *. lia.
    - destruct (Z.eq_dec now t0) as [->|Hne].
      + replace (t0 - t0) with 0 by lia. vm_compute. reflexivity.
      + apply Egt. unfold Qlt, total_seconds. cbn. unfold datetime in *. lia. }
  split; [reflexivity|].
  split; [|split; [|split]].
  - intro Hlt. subst s.
    unfold WebcamVideoStream.write_iter, WebcamVideoStream.write_body. cbn.
    rewrite Htest.
    apply Z.ltb_lt in Hlt. rewrite Hlt. reflexivity.
  - intro Hle. subst s.
    unfold WebcamVideoStream.write_iter, WebcamVideoStream.write_body. cbn.
    rewrite Htest.
    destruct (Z.ltb_spec t0 now); [unfold datetime in *; lia | reflexivity].
  - reflexivity.
  - assert (Hinv : forall l s0,
               WebcamVideoStream.out s0 = None ->
               WebcamVideoStream.out (WebcamVideoStream.run l s0) = None /\
               WebcamVideoStream.current_frame (WebcamVideoStream.run l s0)
               = WebcamVideoStream.current_frame s0).
    { clear. induction l as [|e l IH]; intros s0 H0; cbn; [auto|].
      destruct (step_out_placeholder e s0 H0) as [Ho Hc].
      destruct (IH (WebcamVideoStream.step e s0) Ho) as [Io Ic].
      split; [exact Io | congruence]. }
    destruct (Hinv evs s eq_refl) as [Ho Hc].
    unfold WebcamVideoStream.emitted. rewrite Ho, Hc. auto.
Qed.

Lemma unconfigured_camera_cannot_record_witness :
  WebcamVideoStream.write_iter 1
    (WebcamVideoStream.start 0 (WebcamVideoStream.init 0 true good_read))
  = Raise.
Proof.
  refine (proj1 (proj2 (unconfigured_camera_cannot_record 0 true good_read
                          0 1 0 0 [])) _).
  reflexivity.
Defined.

(** ** The report needs both instants *)

Lemma fps_none_iff (c : FPS.t) :
  FPS.fps c = None <-> FPS._start c = None \/ FPS._end c = None.
Proof.
  unfold FPS.fps, FPS.elapsed.
  destruct (FPS._end c) as [e|], (FPS._start c) as [s|]; cbn.
  - destruct (Qeq_bool _ _); split; try discriminate; intros [H|H]; discriminate.
  - split; auto.
  - split; auto.
  - split; auto.
Qed.

Lemma report_camera_none_iff (k : nat) (vs : WebcamVideoStream.t) :
  Main.report_camera k vs = None
  <-> FPS.fps (WebcamVideoStream.FPS_counter vs) = None.
Proof.
  unfold Main.report_camera.
  destruct (FPS.fps (WebcamVideoStream.FPS_counter vs)); split;
    auto; discriminate.
Qed.

(** X12. The rate of a camera can be computed only when its counter has both
    been started and been stopped: otherwise [fps] raises, and so does the
    report of the controller as soon as one of the four cameras lacks one
    of the two instants. *)
Theorem report_needs_both_instants (vs1 vs2 vs3 vs4 : WebcamVideoStream.t) :
  Main.print_fps_information vs1 vs2 vs3 vs4 = None
  <-> Exists (fun vs =>
                FPS._start (WebcamVideoStream.FPS_counter vs) = None \/
                FPS._end (WebcamVideoStream.FPS_counter vs) = None)
             [vs1; vs2; vs3; vs4].
Proof.
  rewrite !Exists_cons, Exists_nil, <- !fps_none_iff.
  rewrite <- (report_camera_none_iff 1 vs1), <- (report_camera_none_iff 2 vs2),
          <- (report_camera_none_iff 3 vs3), <- (report_camera_none_iff 4 vs4).
  unfold Main.print_fps_information.
  destruct (Main.report_camera 1 vs1), (Main.report_camera 2 vs2),
           (Main.report_camera 3 vs3), (Main.report_camera 4 vs4);
    split; intro H; try reflexivity; try discriminate; try tauto;
    repeat (destruct H as [H|H]; try discriminate); try contradiction.
Qed.
